(** * EcoFinds: cart, checkout and listing handlers

    A shallow embedding of the two Flask applications of the repository:
    [src/app.py] (module [App], the cart is a table of [CartItem] rows keyed
    by the logged-in user) and [src/ecofinds-backend/app.py] (module
    [Backend], the cart is a list of dicts kept in the session).

    Python [int] is unbounded and is read as [Z]; a table is the list of its
    rows in rowid order; a handler is a function from the stored state to
    the new state and the response it returns.  The persistence layer is
    SQLite as configured by the applications: a fresh integer primary key is
    one more than the largest rowid present, and foreign keys are not
    enforced (the default of the driver), so a row may outlive the row it
    references. *)

From Stdlib Require Import ZArith List String Ascii Bool Lia DecimalString.
From Stdlib Require Import PrimFloat Uint63.
Import ListNotations.
Local Open Scope string_scope.
Local Open Scope Z_scope.

(** ** Python builtins used by the handlers *)

(** [str.strip] and [int(str)] are builtins of the interpreter, not code of
    the repository: they are taken as an interface.  [int_of_str] is [None]
    where [int(value)] raises [ValueError].  The two laws are the facts about
    [int] the handlers rely on through their literal defaults. *)
Class PyStr : Type := {
  strip : string -> string;
  int_of_str : string -> option Z;
  int_of_str_empty : int_of_str "" = None;
  int_of_str_zero : int_of_str "0" = Some 0
}.

(** [float] arithmetic of the session-keyed variant, kept abstract:
    [float_of_str] is [None] where [float(value)] raises, [float_of_Z] is the
    conversion of an [int], [float_mul_int] the product [price * quantity]
    and [py_sum] the builtin [sum] over the products. *)
Class PyFloat : Type := {
  float : Type;
  float_of_str : string -> option float;
  float_of_Z : Z -> float;
  float_mul_int : float -> Z -> float;
  py_sum : list float -> float
}.

(** [str.lower], which normalises the e-mail address. *)
Class PyLower : Type := {
  lower : string -> string
}.

(** [werkzeug.security]: [generate_password_hash] draws a salt, here an
    argument, and [check_password_hash pwhash password] tells whether the
    password is the one hashed. *)
Class Werkzeug : Type := {
  generate_password_hash : string -> Z -> string;
  check_password_hash : string -> string -> bool
}.

(** ** The request and the response *)

Inductive Method : Type := GET | POST.

(** [request.form]: the submitted fields, first occurrence of a key wins. *)
Definition Form : Type := list (string * string).

Fixpoint form_lookup (form : Form) (key : string) : option string :=
  match form with
  | [] => None
  | (k, v) :: rest => if String.eqb k key then Some v else form_lookup rest key
  end.

(** [request.form.get(key, default)] *)
Definition form_get (form : Form) (key default : string) : string :=
  match form_lookup form key with
  | Some v => v
  | None => default
  end.

(** What a handler answers: [flash(message, category)] followed by
    [redirect(url_for(endpoint))], a rendered template, the 404 of
    [get_or_404]/[abort(404)], or the 500 of an exception nobody catches. *)
Inductive Response : Type :=
| Redirect (message category endpoint : string)
| Render (template : string)
| NotFound
| ServerError.

(** Python truthiness of a [str]. *)
Definition truthy (s : string) : bool := negb (String.eqb s "").

(** [x in xs] on a list of [str]. *)
Definition str_in (x : string) (xs : list string) : bool :=
  existsb (String.eqb x) xs.

(** What an INTEGER column holds.  Binding a wider [int] makes the driver
    raise [OverflowError] when the unit of work is flushed; no handler
    catches it, the request ends in a 500 and nothing is written.  This is
    modelled for the one integer a request supplies, the price; primary keys
    and quantities are taken to stay within the column. *)
Definition sqlite_integer (n : Z) : bool :=
  (- 2 ^ 63 <=? n) && (n <? 2 ^ 63).

(** A fresh rowid: one more than the largest one in the table. *)
Definition next_id (ids : list Z) : Z := 1 + fold_right Z.max 0 ids.

(** * src/app.py *)
Module App.

Definition CATEGORIES : list string :=
  [ "Electronics"; "Home & Kitchen"; "Books"; "Fashion"; "Sports"; "Toys";
    "Other" ].

(** *** Models.  [created_at] columns and the [User] table are left out: no
    handler below reads them; the logged-in user is its id. *)

Module Product.
Record t : Type := mk {
  id : Z;
  title : string;
  description : string;
  category : string;
  price_rupees : Z;
  image_url : option string;
  seller_id : Z
}.
End Product.

Module CartItem.
Record t : Type := mk {
  id : Z;
  user_id : Z;
  product_id : Z;
  quantity : Z
}.
End CartItem.

Module Order.
Record t : Type := mk {
  id : Z;
  user_id : Z
}.
End Order.

Module OrderItem.
Record t : Type := mk {
  id : Z;
  order_id : Z;
  product_id : Z;
  title : string;
  price_rupees : Z;
  quantity : Z
}.
End OrderItem.

Record DB : Type := mkDB {
  products : list Product.t;
  cart_items : list CartItem.t;
  orders : list Order.t;
  order_items : list OrderItem.t
}.

Definition empty_db : DB := mkDB [] [] [] [].

(** [Product.query.get(product_id)] *)
Definition Product_get (s : DB) (product_id : Z) : option Product.t :=
  find (fun p => Product.id p =? product_id) (products s).

(** [CartItem.query.get(item_id)] *)
Definition CartItem_get (s : DB) (item_id : Z) : option CartItem.t :=
  find (fun i => CartItem.id i =? item_id) (cart_items s).

(** [CartItem.query.filter_by(user_id=...).all()] *)
Definition cart_of (s : DB) (user : Z) : list CartItem.t :=
  filter (fun i => CartItem.user_id i =? user) (cart_items s).

(** The relationship [CartItem.product]: the row the entry references, or
    [None] when it is gone. *)
Definition item_product (s : DB) (i : CartItem.t) : option Product.t :=
  Product_get s (CartItem.product_id i).

(** *** Writes of the unit of work *)

Definition add_product (s : DB) (p : Product.t) : DB :=
  mkDB (products s ++ [p]) (cart_items s) (orders s) (order_items s).

(** UPDATE product ... WHERE id = [Product.id p] *)
Definition update_product (s : DB) (p : Product.t) : DB :=
  mkDB (map (fun r => if Product.id r =? Product.id p then p else r)
            (products s))
       (cart_items s) (orders s) (order_items s).

(** DELETE FROM product WHERE id = [product_id]; no other table is touched:
    [Product] declares no relationship towards [CartItem] or [OrderItem]. *)
Definition delete_product (s : DB) (product_id : Z) : DB :=
  mkDB (filter (fun r => negb (Product.id r =? product_id)) (products s))
       (cart_items s) (orders s) (order_items s).

Definition add_cart_item (s : DB) (i : CartItem.t) : DB :=
  mkDB (products s) (cart_items s ++ [i]) (orders s) (order_items s).

(** [item.quantity += 1] on the row whose primary key is [item_id]. *)
Definition bump_quantity (s : DB) (item_id : Z) : DB :=
  mkDB (products s)
       (map (fun r =>
               if CartItem.id r =? item_id
               then CartItem.mk (CartItem.id r) (CartItem.user_id r)
                      (CartItem.product_id r) (CartItem.quantity r + 1)
               else r)
            (cart_items s))
       (orders s) (order_items s).

Definition delete_cart_item (s : DB) (item_id : Z) : DB :=
  mkDB (products s)
       (filter (fun r => negb (CartItem.id r =? item_id)) (cart_items s))
       (orders s) (order_items s).

Definition add_order (s : DB) (o : Order.t) : DB :=
  mkDB (products s) (cart_items s) (orders s ++ [o]) (order_items s).

Definition add_order_item (s : DB) (oi : OrderItem.t) : DB :=
  mkDB (products s) (cart_items s) (orders s) (order_items s ++ [oi]).

Section Handlers.
Context `{PyStr}.

(** [parse_int]: the [try]/[except Exception] around [int(value)]. *)
Definition parse_int (value : string) (default : Z) : Z :=
  match int_of_str value with
  | Some n => n
  | None => default
  end.

(** [product_new], route /products/new *)
Definition product_new (current_user : Z) (method : Method) (form : Form)
    (s : DB) : DB * Response :=
  match method with
  | POST =>
      let title := strip (form_get form "title" "") in
      let description := strip (form_get form "description" "") in
      let category := strip (form_get form "category" "") in
      let price_rupees := parse_int (form_get form "price" "0") 0 in
      let image_url := strip (form_get form "image_url" "") in
      if negb (truthy title) || negb (truthy category) then
        (s, Redirect "Title and category are required." "danger" "product_new")
      else if negb (str_in category CATEGORIES) then
        (s, Redirect "Invalid category." "danger" "product_new")
      else if negb (sqlite_integer price_rupees) then
        (s, ServerError)
      else
        let product :=
          Product.mk (next_id (map Product.id (products s)))
            title description category price_rupees
            (if truthy image_url then Some image_url else None)
            current_user in
        (add_product s product,
         Redirect "Listing created." "success" "my_listings")
  | GET => (s, Render "product_form.html")
  end.

(** [product_edit], route /products/<product_id>/edit.  On an invalid
    category the handler returns before [commit]: the title and description
    already assigned to the loaded object are dropped with the session. *)
Definition product_edit (current_user : Z) (product_id : Z) (method : Method)
    (form : Form) (s : DB) : DB * Response :=
  match Product_get s product_id with
  | None => (s, NotFound)
  | Some product =>
      if negb (Product.seller_id product =? current_user) then
        (s, Redirect "You can only edit your own listings." "danger" "index")
      else
        match method with
        | POST =>
            let title := strip (form_get form "title" "") in
            let description := strip (form_get form "description" "") in
            let category := strip (form_get form "category" "") in
            if negb (str_in category CATEGORIES) then
              (s, Redirect "Invalid category." "danger" "product_edit")
            else
              let price_rupees := parse_int (form_get form "price" "0") 0 in
              let image_url := strip (form_get form "image_url" "") in
              if negb (sqlite_integer price_rupees) then (s, ServerError)
              else
              (update_product s
                 (Product.mk (Product.id product) title description category
                    price_rupees
                    (if truthy image_url then Some image_url else None)
                    (Product.seller_id product)),
               Redirect "Listing updated." "success" "my_listings")
        | GET => (s, Render "product_form.html")
        end
  end.

(** [product_delete], route /products/<product_id>/delete *)
Definition product_delete (current_user : Z) (product_id : Z) (s : DB)
    : DB * Response :=
  match Product_get s product_id with
  | None => (s, NotFound)
  | Some product =>
      if negb (Product.seller_id product =? current_user) then
        (s, Redirect "You can only delete your own listings." "danger" "index")
      else
        (delete_product s (Product.id product),
         Redirect "Listing deleted." "info" "my_listings")
  end.

End Handlers.

(** [cart_view], route /cart: the [items] and the [total] handed to the
    template.  The generator keeps the entries with [if i.product]. *)
Definition cart_view (current_user : Z) (s : DB) : list CartItem.t * Z :=
  let items := cart_of s current_user in
  let total :=
    fold_left Z.add
      (flat_map (fun i =>
                   match item_product s i with
                   | Some p => [Product.price_rupees p * CartItem.quantity i]
                   | None => []
                   end) items)
      0 in
  (items, total).

(** [cart_add], route /cart/add/<product_id> *)
Definition cart_add (current_user : Z) (product_id : Z) (s : DB)
    : DB * Response :=
  match Product_get s product_id with
  | None => (s, NotFound)
  | Some product =>
      let found :=
        find (fun i => (CartItem.user_id i =? current_user)
                       && (CartItem.product_id i =? Product.id product))
             (cart_items s) in
      let s' :=
        match found with
        | Some item => bump_quantity s (CartItem.id item)
        | None =>
            add_cart_item s
              (CartItem.mk (next_id (map CartItem.id (cart_items s)))
                 current_user (Product.id product) 1)
        end in
      (s', Redirect "Added to cart." "success" "cart_view")
  end.

(** [cart_remove], route /cart/remove/<item_id> *)
Definition cart_remove (current_user : Z) (item_id : Z) (s : DB)
    : DB * Response :=
  match CartItem_get s item_id with
  | None => (s, NotFound)
  | Some item =>
      if negb (CartItem.user_id item =? current_user) then
        (s, Redirect "Cannot modify another user's cart." "danger" "cart_view")
      else
        (delete_cart_item s (CartItem.id item),
         Redirect "Removed from cart." "info" "cart_view")
  end.

(** The [for item in items] loop of [checkout]: an entry whose product is
    gone is passed over by [continue], before the [delete]. *)
Fixpoint checkout_loop (order_id : Z) (items : list CartItem.t) (s : DB)
    : DB :=
  match items with
  | [] => s
  | item :: rest =>
      match item_product s item with
      | None => checkout_loop order_id rest s
      | Some product =>
          let oi :=
            OrderItem.mk (next_id (map OrderItem.id (order_items s)))
              order_id (CartItem.product_id item) (Product.title product)
              (Product.price_rupees product) (CartItem.quantity item) in
          checkout_loop order_id rest
            (delete_cart_item (add_order_item s oi) (CartItem.id item))
      end
  end.

(** [checkout], route /checkout *)
Definition checkout (current_user : Z) (s : DB) : DB * Response :=
  let items := cart_of s current_user in
  match items with
  | [] => (s, Redirect "Your cart is empty." "warning" "cart_view")
  | _ :: _ =>
      let order := Order.mk (next_id (map Order.id (orders s))) current_user in
      (checkout_loop (Order.id order) items (add_order s order),
       Redirect "Checkout complete! Order created." "success" "orders")
  end.

(** *** The responses the specification names *)

Definition EmptyCart : Response :=
  Redirect "Your cart is empty." "warning" "cart_view".
Definition CheckoutComplete : Response :=
  Redirect "Checkout complete! Order created." "success" "orders".
Definition InvalidCategory : Response :=
  Redirect "Invalid category." "danger" "product_new".
Definition ListingCreated : Response :=
  Redirect "Listing created." "success" "my_listings".
Definition ListingUpdated : Response :=
  Redirect "Listing updated." "success" "my_listings".
Definition ListingDeleted : Response :=
  Redirect "Listing deleted." "info" "my_listings".
Definition NotOwnerEdit : Response :=
  Redirect "You can only edit your own listings." "danger" "index".
Definition NotOwnerDelete : Response :=
  Redirect "You can only delete your own listings." "danger" "index".

(** *** Sequences of requests *)

(** The requests that may write to the store. *)
Inductive Request : Type :=
| ProductNew (current_user : Z) (method : Method) (form : Form)
| ProductEdit (current_user product_id : Z) (method : Method) (form : Form)
| ProductDelete (current_user product_id : Z)
| CartAdd (current_user product_id : Z)
| CartRemove (current_user item_id : Z)
| Checkout (current_user : Z).

Definition handle `{PyStr} (r : Request) (s : DB) : DB * Response :=
  match r with
  | ProductNew u m form => product_new u m form s
  | ProductEdit u pid m form => product_edit u pid m form s
  | ProductDelete u pid => product_delete u pid s
  | CartAdd u pid => cart_add u pid s
  | CartRemove u item_id => cart_remove u item_id s
  | Checkout u => checkout u s
  end.

(** The store after the requests [rs], served in order from [s]. *)
Definition run `{PyStr} (s : DB) (rs : list Request) : DB :=
  fold_left (fun s r => fst (handle r s)) rs s.

(** *** Properties of a store *)

Definition cart_key (i : CartItem.t) : Z * Z :=
  (CartItem.user_id i, CartItem.product_id i).

(** At most one entry per (owner, product), every quantity at least 1. *)
Definition cart_ok (s : DB) : Prop :=
  NoDup (map cart_key (cart_items s))
  /\ Forall (fun i => 1 <= CartItem.quantity i) (cart_items s).

(** The entries of [owner] that reference [product_id]. *)
Definition entries_for (s : DB) (owner product_id : Z) : list CartItem.t :=
  filter (fun i => (CartItem.user_id i =? owner)
                   && (CartItem.product_id i =? product_id))
         (cart_items s).

(** An entry whose product is gone: [not item.product]. *)
Definition stale (s : DB) (i : CartItem.t) : bool :=
  match item_product s i with
  | Some _ => false
  | None => true
  end.

(** The cart total in the words of the specification: current price times
    quantity for an entry whose product exists, 0 for one whose product was
    deleted, summed over the entries of the owner. *)
Definition line_amount (s : DB) (i : CartItem.t) : Z :=
  match item_product s i with
  | Some p => Product.price_rupees p * CartItem.quantity i
  | None => 0
  end.

Definition total_spec (s : DB) (owner : Z) : Z :=
  fold_right Z.add 0 (map (line_amount s) (cart_of s owner)).

(** What an [OrderItem] copies, apart from its own primary key. *)
Definition line_fields (oi : OrderItem.t) : Z * Z * string * Z * Z :=
  (OrderItem.order_id oi, OrderItem.product_id oi, OrderItem.title oi,
   OrderItem.price_rupees oi, OrderItem.quantity oi).

(** The order lines the specification asks of a checkout in store [s]: for
    each entry whose product exists, the title and price the product has in
    [s] and the quantity of the entry. *)
Definition snapshot_spec (s : DB) (order_id : Z) (items : list CartItem.t)
    : list (Z * Z * string * Z * Z) :=
  flat_map (fun i =>
              match item_product s i with
              | Some p =>
                  [(order_id, CartItem.product_id i, Product.title p,
                    Product.price_rupees p, CartItem.quantity i)]
              | None => []
              end) items.

(** *** Stores used as concrete inputs *)

Definition bottle : Product.t :=
  Product.mk 1 "Bottle" "Steel bottle" "Sports" 10 None 1.

(** User 2 holds one entry for product 1, which is no longer listed. *)
Definition stale_cart_db : DB :=
  mkDB [] [CartItem.mk 1 2 1 1] [] [].

(** User 2 holds an entry for the listed product 1 and one for product 7,
    which is no longer listed. *)
Definition mixed_cart_db : DB :=
  mkDB [bottle] [CartItem.mk 1 2 1 2; CartItem.mk 2 2 7 1] [] [].

(** User 1 lists product 1; user 2 has it in the cart. *)
Definition listed_db : DB :=
  mkDB [bottle] [CartItem.mk 1 2 1 2] [] [].

(** *** Accounts: the [User] table, read and written by [signup], [login]
    and [dashboard] only *)

Module User.
Record t : Type := mk {
  id : Z;
  email : string;
  username : string;
  password_hash : string
}.
End User.

(** [User.query.filter_by(email=email).first()] *)
Definition User_by_email (users : list User.t) (email : string)
    : option User.t :=
  find (fun u => String.eqb (User.email u) email) users.

Section Accounts.
Context `{PyStr} `{PyLower} `{Werkzeug}.

(** [signup], route /signup; [salt] is the draw of [set_password]. *)
Definition signup (method : Method) (form : Form) (salt : Z)
    (users : list User.t) : list User.t * Response :=
  match method with
  | POST =>
      let email := strip (lower (form_get form "email" "")) in
      let username := strip (form_get form "username" "") in
      let password := form_get form "password" "" in
      if negb (truthy email) || negb (truthy username)
         || negb (truthy password) then
        (users, Redirect "All fields are required." "danger" "signup")
      else
        match User_by_email users email with
        | Some _ =>
            (users, Redirect "Email already registered." "warning" "signup")
        | None =>
            ((users ++
                [User.mk (next_id (map User.id users)) email username
                   (generate_password_hash password salt)])%list,
             Redirect "Signup successful. Please log in." "success" "login")
        end
  | GET => (users, Render "signup.html")
  end.

(** [login], route /login.  The session holds the id [login_user] stored,
    or nothing; a refused attempt leaves it as it was. *)
Definition login (method : Method) (form : Form) (users : list User.t)
    (session : option Z) : option Z * Response :=
  match method with
  | POST =>
      let email := strip (lower (form_get form "email" "")) in
      let password := form_get form "password" "" in
      match User_by_email users email with
      | Some user =>
          if check_password_hash (User.password_hash user) password then
            (Some (User.id user), Redirect "Welcome back!" "success" "index")
          else
            (session, Redirect "Invalid email or password" "danger" "login")
      | None =>
          (session, Redirect "Invalid email or password" "danger" "login")
      end
  | GET => (session, Render "login.html")
  end.

(** [dashboard], route /dashboard: [current_user.username = username] is
    the UPDATE of the row of the logged-in user. *)
Definition dashboard (current_user : Z) (method : Method) (form : Form)
    (users : list User.t) : list User.t * Response :=
  match method with
  | POST =>
      let username := strip (form_get form "username" "") in
      if negb (truthy username) then
        (users, Redirect "Username cannot be empty." "danger" "dashboard")
      else
        (map (fun u =>
                if User.id u =? current_user
                then User.mk (User.id u) (User.email u) username
                       (User.password_hash u)
                else u) users,
         Redirect "Profile updated." "success" "dashboard")
  | GET => (users, Render "dashboard.html")
  end.

(** The requests that may write to the [User] table. *)
Inductive AccountRequest : Type :=
| Signup (method : Method) (form : Form) (salt : Z)
| Dashboard (current_user : Z) (method : Method) (form : Form).

Definition handle_account (r : AccountRequest) (users : list User.t)
    : list User.t * Response :=
  match r with
  | Signup m form salt => signup m form salt users
  | Dashboard u m form => dashboard u m form users
  end.

Definition run_accounts (users : list User.t) (rs : list AccountRequest)
    : list User.t :=
  fold_left (fun users r => fst (handle_account r users)) rs users.

End Accounts.

(** *** Further properties of a store *)

(** The logged-in user on whose behalf a request is served. *)
Definition requester (r : Request) : Z :=
  match r with
  | ProductNew u _ _ => u
  | ProductEdit u _ _ _ => u
  | ProductDelete u _ => u
  | CartAdd u _ => u
  | CartRemove u _ => u
  | Checkout u => u
  end.

(** Primary keys are unique in each table. *)
Definition pk_unique (s : DB) : Prop :=
  NoDup (map Product.id (products s))
  /\ NoDup (map CartItem.id (cart_items s))
  /\ NoDup (map Order.id (orders s))
  /\ NoDup (map OrderItem.id (order_items s)).

(** The amount of a list of order lines: price times quantity, summed. *)
Definition lines_amount (lines : list OrderItem.t) : Z :=
  fold_right Z.add 0
    (map (fun oi => OrderItem.price_rupees oi * OrderItem.quantity oi) lines).

(** The quantity the owner holds of a product, over all matching rows. *)
Definition quantity_held (s : DB) (owner product_id : Z) : Z :=
  fold_right Z.add 0 (map CartItem.quantity (entries_for s owner product_id)).

End App.

(** * src/ecofinds-backend/app.py *)
Module Backend.

Definition CATEGORIES : list string :=
  [ "Home"; "Fashion"; "Electronics"; "Outdoors"; "Beauty"; "Other" ].

Module Product.
Record t `{PyFloat} : Type := mk {
  id : Z;
  name : string;
  description : string;
  price : float;
  category : string;
  seller_id : Z
}.
Arguments mk {_}.
End Product.

Module Order.
Record t `{PyFloat} : Type := mk {
  id : Z;
  user_id : Z;
  total : float
}.
Arguments mk {_}.
End Order.

Module OrderItem.
Record t `{PyFloat} : Type := mk {
  id : Z;
  order_id : Z;
  product_id : Z;
  quantity : Z;
  price : float
}.
Arguments mk {_}.
End OrderItem.

(** One dict of the session cart.  Every dict is built by the literal of
    [add_to_cart], so the four keys are always present and the default of
    [item.get("quantity", 1)] is never taken. *)
Module CartEntry.
Record t `{PyFloat} : Type := mk {
  id : Z;
  name : string;
  price : float;
  quantity : Z
}.
Arguments mk {_}.
End CartEntry.

Record DB `{PyFloat} : Type := mkDB {
  products : list Product.t;
  orders : list Order.t;
  order_items : list OrderItem.t
}.
Arguments mkDB {_}.

Section Handlers.
Context `{PyStr} `{PyFloat}.

(** [session["cart"]], the empty list when the key is absent. *)
Definition Cart : Type := list CartEntry.t.

(** [db.session.get(Product, product_id)] *)
Definition Product_get (s : DB) (product_id : Z) : option Product.t :=
  find (fun p => Product.id p =? product_id) (products s).

(** [float(request.form.get("price") or 0)] *)
Definition form_price (form : Form) : option float :=
  match form_lookup form "price" with
  | Some v => if truthy v then float_of_str v else Some (float_of_Z 0)
  | None => Some (float_of_Z 0)
  end.

(** [product_form], route /product/new.  The price is converted first; a
    text [float] rejects ends the request with an uncaught [ValueError]. *)
Definition product_form (current_user : Z) (method : Method) (form : Form)
    (s : DB) : DB * Response :=
  match method with
  | POST =>
      let name := strip (form_get form "name" "") in
      let description := strip (form_get form "description" "") in
      match form_price form with
      | None => (s, ServerError)
      | Some price =>
          let category := form_get form "category" "Other" in
          if negb (truthy name) then
            (s, Redirect "Product name is required." "error" "product_form")
          else
            let p :=
              Product.mk (next_id (map Product.id (products s)))
                name description price category current_user in
            (mkDB (products s ++ [p]) (orders s) (order_items s),
             Redirect "Product created." "success" "my_listings")
      end
  | GET => (s, Render "product_form.html")
  end.

(** [cart], route /cart *)
Definition cart (cart_items : Cart) : Cart * float :=
  (cart_items,
   py_sum (map (fun item =>
                  float_mul_int (CartEntry.price item)
                    (CartEntry.quantity item)) cart_items)).

(** The [for item in cart: ... break] of [add_to_cart]: [Some] of the cart
    with the first matching dict incremented, [None] when the loop ends
    without [break] (the [else] branch is then taken). *)
Fixpoint merge_quantity (product_id : Z) (cart : Cart) : option Cart :=
  match cart with
  | [] => None
  | item :: rest =>
      if CartEntry.id item =? product_id then
        Some (CartEntry.mk (CartEntry.id item) (CartEntry.name item)
                (CartEntry.price item) (CartEntry.quantity item + 1) :: rest)
      else
        match merge_quantity product_id rest with
        | Some rest' => Some (item :: rest')
        | None => None
        end
  end.

(** [add_to_cart], route /cart/add/<product_id> *)
Definition add_to_cart (product_id : Z) (s : DB) (cart : Cart)
    : Cart * Response :=
  match Product_get s product_id with
  | None => (cart, NotFound)
  | Some product =>
      let cart' :=
        match merge_quantity (Product.id product) cart with
        | Some merged => merged
        | None =>
            (cart ++ [CartEntry.mk (Product.id product) (Product.name product)
                        (Product.price product) 1])%list
        end in
      (cart', Redirect "Added to cart." "success" "cart")
  end.

(** [remove_from_cart], route /cart/remove/<product_id> *)
Definition remove_from_cart (product_id : Z) (cart : Cart)
    : Cart * Response :=
  (filter (fun item => negb (CartEntry.id item =? product_id)) cart,
   Redirect "Removed from cart." "success" "cart").

(** The second loop of [checkout]: one [OrderItem] per dict of the cart. *)
Fixpoint checkout_loop (order_id : Z) (cart : Cart) (s : DB) : DB :=
  match cart with
  | [] => s
  | item :: rest =>
      checkout_loop order_id rest
        (mkDB (products s) (orders s)
           (order_items s ++
              [OrderItem.mk (next_id (map OrderItem.id (order_items s)))
                 order_id (CartEntry.id item) (CartEntry.quantity item)
                 (CartEntry.price item)]))
  end.

Definition decimal (n : Z) : string :=
  DecimalString.NilZero.string_of_int (Z.to_int n).

(** [checkout], route /checkout *)
Definition checkout (current_user : Z) (s : DB) (cart : Cart)
    : DB * Cart * Response :=
  match cart with
  | [] => (s, cart, Redirect "Your cart is empty." "error" "cart")
  | _ :: _ =>
      let total :=
        py_sum (map (fun item =>
                       float_mul_int (CartEntry.price item)
                         (CartEntry.quantity item)) cart) in
      let order := Order.mk (next_id (map Order.id (orders s)))
                     current_user total in
      let s1 := mkDB (products s) (orders s ++ [order]) (order_items s) in
      (checkout_loop (Order.id order) cart s1, [],
       Redirect ("Order #" ++ decimal (Order.id order)
                   ++ " placed successfully!") "success" "orders")
  end.

End Handlers.

(** *** Sequences of requests of one session *)

Inductive Request : Type :=
| ProductForm (current_user : Z) (method : Method) (form : Form)
| AddToCart (product_id : Z)
| RemoveFromCart (product_id : Z)
| Checkout (current_user : Z).

Definition EmptyCart : Response :=
  Redirect "Your cart is empty." "error" "cart".

Section Runs.
Context `{PyStr} `{PyFloat}.

(** The store and the session cart after one request. *)
Definition handle (r : Request) (st : DB * Cart) : DB * Cart * Response :=
  let (s, cart) := st in
  match r with
  | ProductForm u m form =>
      let (s', resp) := product_form u m form s in (s', cart, resp)
  | AddToCart pid =>
      let (cart', resp) := add_to_cart pid s cart in (s, cart', resp)
  | RemoveFromCart pid =>
      let (cart', resp) := remove_from_cart pid cart in (s, cart', resp)
  | Checkout u => checkout u s cart
  end.

Definition run (st : DB * Cart) (rs : list Request) : DB * Cart :=
  fold_left (fun st r => fst (handle r st)) rs st.

(** At most one dict per product id, every quantity at least 1. *)
Definition cart_ok (cart : Cart) : Prop :=
  NoDup (map CartEntry.id cart)
  /\ Forall (fun item => 1 <= CartEntry.quantity item) cart.

End Runs.

Section Dashboard.
Context `{PyFloat}.

(** [dashboard], route /dashboard: the three counts handed to the template;
    [cart_count] is [sum] over the quantities of the session cart. *)
Definition dashboard (current_user : Z) (s : DB) (cart : Cart)
    : Z * Z * Z :=
  (Z.of_nat (List.length
               (filter (fun p => Product.seller_id p =? current_user)
                  (products s))),
   Z.of_nat (List.length
               (filter (fun o => Order.user_id o =? current_user)
                  (orders s))),
   fold_left Z.add (map CartEntry.quantity cart) 0).

(** Every dict of the cart agrees with the listing it was taken from. *)
Definition cart_matches_catalog (s : DB) (cart : Cart) : Prop :=
  forall item, In item cart ->
    exists p, Product_get s (CartEntry.id item) = Some p
              /\ Product.name p = CartEntry.name item
              /\ Product.price p = CartEntry.price item.

End Dashboard.

End Backend.

(** * A concrete reading of the builtins, to run the handlers on examples *)

(** It returns what the interpreter returns on the texts it accepts (ASCII
    decimal numerals, with surrounding ASCII whitespace and a sign); it
    rejects texts the interpreter accepts (digit groups, other scripts). *)

Definition is_space (c : ascii) : bool :=
  let n := nat_of_ascii c in
  ((9 <=? n) && (n <=? 13) || (28 <=? n) && (n <=? 32))%nat.

Definition digit_of (c : ascii) : option Z :=
  let n := nat_of_ascii c in
  if ((48 <=? n) && (n <=? 57))%nat then Some (Z.of_nat n - 48) else None.

Fixpoint lstrip (s : string) : string :=
  match s with
  | String c rest => if is_space c then lstrip rest else s
  | EmptyString => EmptyString
  end.

Fixpoint rstrip (s : string) : string :=
  match s with
  | String c rest =>
      match rstrip rest with
      | EmptyString => if is_space c then EmptyString else String c EmptyString
      | kept => String c kept
      end
  | EmptyString => EmptyString
  end.

Definition ascii_strip (s : string) : string := rstrip (lstrip s).

Fixpoint digits_value (acc : Z) (s : string) : option Z :=
  match s with
  | String c rest =>
      match digit_of c with
      | Some d => digits_value (10 * acc + d) rest
      | None => None
      end
  | EmptyString => Some acc
  end.

Definition numeral (s : string) : option Z :=
  match s with
  | EmptyString => None
  | _ => digits_value 0 s
  end.

Definition ascii_int (s : string) : option Z :=
  match ascii_strip s with
  | String "+" rest => numeral rest
  | String "-" rest => option_map Z.opp (numeral rest)
  | t => numeral t
  end.

#[export] Instance AsciiPy : PyStr := {|
  strip := ascii_strip;
  int_of_str := ascii_int;
  int_of_str_empty := eq_refl;
  int_of_str_zero := eq_refl
|}.

(** Prices as binary64 numbers; only integral numerals are read from text. *)
Definition float_of_int (n : Z) : PrimFloat.float :=
  if 0 <=? n then PrimFloat.of_uint63 (Uint63.of_Z n)
  else PrimFloat.opp (PrimFloat.of_uint63 (Uint63.of_Z (- n))).

#[export] Instance Binary64 : PyFloat := {|
  float := PrimFloat.float;
  float_of_str := fun s => option_map float_of_int (ascii_int s);
  float_of_Z := float_of_int;
  float_mul_int := fun x n => PrimFloat.mul x (float_of_int n);
  py_sum := fun xs => fold_left PrimFloat.add xs (float_of_int 0)
|}.

(** A store of the session-keyed application with one listing, of user 1. *)
Definition lamp : Backend.Product.t :=
  Backend.Product.mk 1 "Lamp" "Solar lamp" (float_of_int 12) "Outdoors" 1.

Definition lamp_db : Backend.DB := Backend.mkDB [lamp] [] [].

(** Lower case on ASCII letters. *)
Definition ascii_lower_char (c : ascii) : ascii :=
  let n := nat_of_ascii c in
  if ((65 <=? n) && (n <=? 90))%nat then ascii_of_nat (n + 32) else c.

Fixpoint ascii_lower (s : string) : string :=
  match s with
  | String c rest => String (ascii_lower_char c) (ascii_lower rest)
  | EmptyString => EmptyString
  end.

#[export] Instance AsciiLower : PyLower := {|
  lower := ascii_lower
|}.

(** A stand-in for the password hash, to run the account handlers: the
    stored text is the password itself, whatever the salt. *)
Definition toy_hash (password : string) (salt : Z) : string := password.

#[export] Instance ToyHash : Werkzeug := {|
  generate_password_hash := toy_hash;
  check_password_hash := String.eqb
|}.

(** One registered user. *)
Definition asha : App.User.t :=
  App.User.mk 1 "asha@example.org" "Asha" (toy_hash "s3cret" 7).

(** * Facts about src/app.py *)

Local Open Scope list_scope.

Section AppFacts.
Context `{PyStr}.
Import App.

(** ** Lookups *)

Lemma find_some_id {A} (pk : A -> Z) (k : Z) (rows : list A) (r : A) :
  find (fun x => pk x =? k) rows = Some r -> In r rows /\ pk r = k.
Proof.
  intros Hf. apply find_some in Hf. destruct Hf as [Hin Hk].
  split; [exact Hin | now apply Z.eqb_eq].
Qed.

Lemma Product_get_id (s : DB) (pid : Z) (p : Product.t) :
  Product_get s pid = Some p -> Product.id p = pid.
Proof. intros Hg. now apply find_some_id in Hg. Qed.

(** ** Checkout on an empty cart *)

Lemma checkout_empty (u : Z) (s : DB) :
  cart_of s u = [] -> checkout u s = (s, EmptyCart).
Proof. unfold checkout. intros ->. reflexivity. Qed.

Lemma checkout_nonempty (u : Z) (s : DB) :
  cart_of s u <> [] ->
  checkout u s =
    (checkout_loop (next_id (map Order.id (orders s))) (cart_of s u)
       (add_order s (Order.mk (next_id (map Order.id (orders s))) u)),
     CheckoutComplete).
Proof.
  unfold checkout. destruct (cart_of s u) as [|i rest]; [congruence|].
  intros _. reflexivity.
Qed.

(** ** Ownership *)

Lemma product_edit_not_owner (u pid : Z) (m : Method) (form : Form) (s : DB)
    (p : Product.t) :
  Product_get s pid = Some p -> Product.seller_id p <> u ->
  product_edit u pid m form s = (s, NotOwnerEdit).
Proof.
  intros Hg Hne. unfold product_edit. rewrite Hg.
  destruct (Z.eqb_spec (Product.seller_id p) u); [contradiction|].
  reflexivity.
Qed.

Lemma product_delete_not_owner (u pid : Z) (s : DB) (p : Product.t) :
  Product_get s pid = Some p -> Product.seller_id p <> u ->
  product_delete u pid s = (s, NotOwnerDelete).
Proof.
  intros Hg Hne. unfold product_delete. rewrite Hg.
  destruct (Z.eqb_spec (Product.seller_id p) u); [contradiction|].
  reflexivity.
Qed.

(** ** Creating a listing *)

Lemma product_new_invalid_category (u : Z) (form : Form) (s : DB) :
  str_in (strip (form_get form "category" "")) CATEGORIES = false ->
  fst (product_new u POST form s) = s
  /\ (snd (product_new u POST form s) = InvalidCategory
      \/ snd (product_new u POST form s)
         = Redirect "Title and category are required." "danger" "product_new").
Proof.
  intros Hc. unfold product_new. rewrite Hc. cbn [negb].
  destruct (negb (truthy (strip (form_get form "title" "")))
            || negb (truthy (strip (form_get form "category" ""))));
    cbn; auto.
Qed.

Lemma parse_int_default (value : string) (default : Z) :
  int_of_str value = None -> parse_int value default = default.
Proof. unfold parse_int. intros ->. reflexivity. Qed.

Lemma product_new_valid (u : Z) (form : Form) (s : DB) :
  truthy (strip (form_get form "title" "")) = true ->
  str_in (strip (form_get form "category" "")) CATEGORIES = true ->
  sqlite_integer (parse_int (form_get form "price" "0") 0) = true ->
  product_new u POST form s =
    (add_product s
       (Product.mk (next_id (map Product.id (products s)))
          (strip (form_get form "title" ""))
          (strip (form_get form "description" ""))
          (strip (form_get form "category" ""))
          (parse_int (form_get form "price" "0") 0)
          (if truthy (strip (form_get form "image_url" ""))
           then Some (strip (form_get form "image_url" "")) else None)
          u),
     ListingCreated).
Proof.
  intros Ht Hc Hfit. unfold product_new. rewrite Ht, Hc, Hfit.
  assert (Hcat : truthy (strip (form_get form "category" "")) = true).
  { unfold truthy.
    destruct (String.eqb_spec (strip (form_get form "category" "")) "")
      as [E|E]; [|reflexivity].
    rewrite E in Hc. discriminate Hc. }
  rewrite Hcat. reflexivity.
Qed.

(** ** Sums *)

Lemma fold_left_add (l : list Z) (a : Z) :
  fold_left Z.add l a = a + fold_right Z.add 0 l.
Proof.
  revert a. induction l as [|x l IH]; intros a; cbn.
  - lia.
  - rewrite IH. lia.
Qed.

Lemma cart_view_items (u : Z) (s : DB) : fst (cart_view u s) = cart_of s u.
Proof. reflexivity. Qed.

Lemma cart_view_total (u : Z) (s : DB) :
  snd (cart_view u s) = total_spec s u.
Proof.
  unfold cart_view, total_spec. cbn [snd]. rewrite fold_left_add.
  induction (cart_of s u) as [|i items IH]; cbn; [reflexivity|].
  rewrite fold_right_app. unfold line_amount at 1.
  destruct (item_product s i) as [p|]; cbn.
  - cbn in IH. lia.
  - exact IH.
Qed.

(** ** The product table under edit and delete *)

Lemma find_map_pk {A} (pk : A -> Z) (f : A -> A) (k : Z) (rows : list A) :
  (forall r, pk (f r) = pk r) ->
  find (fun x => pk x =? k) (map f rows)
  = option_map f (find (fun x => pk x =? k) rows).
Proof.
  intros Hpk. induction rows as [|r rows IH]; cbn; [reflexivity|].
  rewrite Hpk. destruct (pk r =? k); [reflexivity | exact IH].
Qed.

Lemma Product_get_update (s : DB) (p' : Product.t) (q : Z) :
  Product_get (update_product s p') q
  = option_map (fun r => if Product.id r =? Product.id p' then p' else r)
      (Product_get s q).
Proof.
  unfold Product_get, update_product. cbn [products].
  apply find_map_pk. intros r.
  destruct (Z.eqb_spec (Product.id r) (Product.id p')); congruence.
Qed.

Lemma Product_get_delete_same (s : DB) (pid : Z) :
  Product_get (delete_product s pid) pid = None.
Proof.
  unfold Product_get, delete_product. cbn [products].
  induction (products s) as [|r rows IH]; cbn; [reflexivity|].
  destruct (Z.eqb_spec (Product.id r) pid) as [E|E]; cbn; [exact IH|].
  destruct (Z.eqb_spec (Product.id r) pid); [contradiction | exact IH].
Qed.

Lemma Product_get_delete_other (s : DB) (pid q : Z) :
  q <> pid -> Product_get (delete_product s pid) q = Product_get s q.
Proof.
  intros Hq. unfold Product_get, delete_product. cbn [products].
  induction (products s) as [|r rows IH]; cbn; [reflexivity|].
  destruct (Z.eqb_spec (Product.id r) pid) as [E|E]; cbn.
  - destruct (Z.eqb_spec (Product.id r) q); [congruence | exact IH].
  - destruct (Product.id r =? q); [reflexivity | exact IH].
Qed.

Lemma product_edit_updated (u pid : Z) (form : Form) (s s' : DB) :
  product_edit u pid POST form s = (s', ListingUpdated) ->
  exists p, Product_get s pid = Some p
    /\ Product.seller_id p = u
    /\ s' = update_product s
              (Product.mk pid (strip (form_get form "title" ""))
                 (strip (form_get form "description" ""))
                 (strip (form_get form "category" ""))
                 (parse_int (form_get form "price" "0") 0)
                 (if truthy (strip (form_get form "image_url" ""))
                  then Some (strip (form_get form "image_url" "")) else None)
                 u).
Proof.
  unfold product_edit.
  destruct (Product_get s pid) as [p|] eqn:Hg; [|discriminate].
  destruct (Z.eqb_spec (Product.seller_id p) u) as [Hu|Hu]; cbn [negb];
    [|discriminate].
  destruct (str_in _ CATEGORIES); cbn [negb]; [|discriminate].
  destruct (sqlite_integer _); cbn [negb]; [|discriminate].
  intros Heq. injection Heq as Hs. exists p.
  rewrite (Product_get_id _ _ _ Hg) in Hs. subst u.
  repeat split. now symmetry.
Qed.

Lemma product_delete_deleted (u pid : Z) (s s' : DB) :
  product_delete u pid s = (s', ListingDeleted) ->
  exists p, Product_get s pid = Some p
    /\ Product.seller_id p = u
    /\ s' = delete_product s pid.
Proof.
  unfold product_delete.
  destruct (Product_get s pid) as [p|] eqn:Hg; [|discriminate].
  destruct (Z.eqb_spec (Product.seller_id p) u) as [Hu|Hu]; cbn [negb];
    [|discriminate].
  intros Heq. injection Heq as Hs. exists p.
  rewrite (Product_get_id _ _ _ Hg) in Hs. auto.
Qed.

(** ** The checkout loop *)

Lemma item_product_ext (s1 s2 : DB) (i : CartItem.t) :
  products s1 = products s2 -> item_product s1 i = item_product s2 i.
Proof. unfold item_product, Product_get. intros ->. reflexivity. Qed.

Lemma snapshot_spec_ext (s1 s2 : DB) (oid : Z) (items : list CartItem.t) :
  products s1 = products s2 ->
  snapshot_spec s1 oid items = snapshot_spec s2 oid items.
Proof.
  intros Hp. unfold snapshot_spec. apply flat_map_ext. intros i.
  now rewrite (item_product_ext s1 s2 i Hp).
Qed.

Lemma checkout_loop_products (oid : Z) (items : list CartItem.t) (s : DB) :
  products (checkout_loop oid items s) = products s.
Proof.
  revert s. induction items as [|i items IH]; intros s; cbn; [reflexivity|].
  destruct (item_product s i); rewrite IH; reflexivity.
Qed.

Lemma checkout_loop_orders (oid : Z) (items : list CartItem.t) (s : DB) :
  orders (checkout_loop oid items s) = orders s.
Proof.
  revert s. induction items as [|i items IH]; intros s; cbn; [reflexivity|].
  destruct (item_product s i); rewrite IH; reflexivity.
Qed.

Lemma checkout_loop_lines (oid : Z) (items : list CartItem.t) (s : DB) :
  exists new,
    order_items (checkout_loop oid items s) = order_items s ++ new
    /\ map line_fields new = snapshot_spec s oid items.
Proof.
  revert s. induction items as [|i items IH]; intros s; cbn.
  - exists []. now rewrite app_nil_r.
  - destruct (item_product s i) as [p|] eqn:Hp.
    + match goal with
      | |- context [checkout_loop oid items ?s1] =>
          destruct (IH s1) as (new & Hnew & Hfields);
          rewrite (snapshot_spec_ext s1 s oid items eq_refl) in Hfields
      end.
      eexists (_ :: new). split.
      * rewrite Hnew. cbn [order_items delete_cart_item add_order_item].
        rewrite <- app_assoc. reflexivity.
      * cbn. now rewrite Hfields.
    + destruct (IH s) as (new & Hnew & Hfields).
      exists new. now split.
Qed.

Lemma checkout_loop_all_stale (oid : Z) (items : list CartItem.t) (s : DB) :
  (forall i, In i items -> item_product s i = None) ->
  checkout_loop oid items s = s.
Proof.
  induction items as [|i items IH]; intros Hstale; cbn; [reflexivity|].
  rewrite (Hstale i (or_introl eq_refl)).
  apply IH. intros j Hj. apply Hstale. now right.
Qed.

(** ** Order lines are only ever appended *)

Lemma handle_order_items (r : Request) (s : DB) :
  exists more, order_items (fst (handle r s)) = order_items s ++ more.
Proof.
  assert (Hsame : forall s' : DB, order_items s' = order_items s ->
            exists more, order_items s' = order_items s ++ more).
  { intros s' ->. exists []. now rewrite app_nil_r. }
  destruct r as [u m form|u pid m form|u pid|u pid|u iid|u]; cbn [handle].
  - unfold product_new. destruct m; [now apply Hsame|].
    repeat (match goal with |- context [if ?b then _ else _] => destruct b end);
      now apply Hsame.
  - unfold product_edit. destruct (Product_get s pid); [|now apply Hsame].
    destruct (negb _); [now apply Hsame|]. destruct m; [now apply Hsame|].
    destruct (negb _); [now apply Hsame|].
    destruct (negb _); now apply Hsame.
  - unfold product_delete. destruct (Product_get s pid); [|now apply Hsame].
    destruct (negb _); now apply Hsame.
  - unfold cart_add. destruct (Product_get s pid); [|now apply Hsame].
    destruct (find _ _); now apply Hsame.
  - unfold cart_remove. destruct (CartItem_get s iid); [|now apply Hsame].
    destruct (negb _); now apply Hsame.
  - unfold checkout. destruct (cart_of s u) as [|i items]; [now apply Hsame|].
    cbn [fst]. match goal with
    | |- context [checkout_loop ?o ?l ?s1] =>
        destruct (checkout_loop_lines o l s1) as (new & Hnew & _)
    end.
    exists new. exact Hnew.
Qed.

Lemma run_order_items (rs : list Request) (s : DB) :
  exists more, order_items (run s rs) = order_items s ++ more.
Proof.
  revert s. induction rs as [|r rs IH]; intros s; cbn.
  - exists []. now rewrite app_nil_r.
  - destruct (handle_order_items r s) as (m1 & H1).
    destruct (IH (fst (handle r s))) as (m2 & H2).
    exists (m1 ++ m2). unfold run in H2. rewrite H2, H1.
    now rewrite app_assoc.
Qed.

(** ** Fresh primary keys *)

Lemma next_id_above (ids : list Z) (x : Z) : In x ids -> x < next_id ids.
Proof.
  unfold next_id. induction ids as [|y ids IH]; cbn [fold_right In];
    [contradiction|].
  intros [->|Hin]; [lia|]. specialize (IH Hin). lia.
Qed.

(** ** The cart invariant, write by write *)

Lemma NoDup_map_filter {A B} (f : A -> B) (g : A -> bool) (l : list A) :
  NoDup (map f l) -> NoDup (map f (filter g l)).
Proof.
  induction l as [|x l IH]; cbn; [trivial|].
  intros Hnd. inversion Hnd as [|? ? Hnotin Hnd']; subst.
  destruct (g x); cbn; [|now apply IH].
  constructor; [|now apply IH].
  intros Hin. apply Hnotin. apply in_map_iff in Hin.
  destruct Hin as (y & Hy & Hiny). apply filter_In in Hiny.
  apply in_map_iff. exists y. tauto.
Qed.

Lemma cart_ok_same_cart (s s' : DB) :
  cart_items s' = cart_items s -> cart_ok s -> cart_ok s'.
Proof. unfold cart_ok. intros ->. trivial. Qed.

Lemma cart_ok_delete (s : DB) (iid : Z) :
  cart_ok s -> cart_ok (delete_cart_item s iid).
Proof.
  unfold cart_ok, delete_cart_item. cbn [cart_items]. intros [Hnd Hq]. split.
  - now apply NoDup_map_filter.
  - apply Forall_forall. intros i Hi. apply filter_In in Hi.
    rewrite Forall_forall in Hq. now apply Hq.
Qed.

Lemma cart_ok_bump (s : DB) (iid : Z) :
  cart_ok s -> cart_ok (bump_quantity s iid).
Proof.
  unfold cart_ok, bump_quantity. cbn [cart_items]. intros [Hnd Hq]. split.
  - rewrite map_map. erewrite map_ext; [exact Hnd|].
    intros r. now destruct (CartItem.id r =? iid).
  - apply Forall_map. eapply Forall_impl; [|exact Hq].
    intros r Hr. cbn beta in Hr |- *.
    destruct (CartItem.id r =? iid); cbn [CartItem.quantity]; lia.
Qed.

Lemma cart_ok_add (s : DB) (iid u pid : Z) :
  find (fun i => (CartItem.user_id i =? u) && (CartItem.product_id i =? pid))
       (cart_items s) = None ->
  cart_ok s -> cart_ok (add_cart_item s (CartItem.mk iid u pid 1)).
Proof.
  unfold cart_ok, add_cart_item. cbn [cart_items]. intros Hf [Hnd Hq]. split.
  - rewrite map_app. apply NoDup_app; [exact Hnd | |].
    + cbn. constructor; [intros [] | constructor].
    + intros k Hk [Hin|[]]. subst k. apply in_map_iff in Hk.
      destruct Hk as (i & Hi & Hin).
      pose proof (find_none _ _ Hf i Hin) as Hno. cbn beta in Hno.
      unfold cart_key in Hi. cbn in Hi. injection Hi as Hu Hp.
      rewrite Hu, Hp, !Z.eqb_refl in Hno. discriminate Hno.
  - apply Forall_app. split; [exact Hq|]. constructor; [cbn; lia | constructor].
Qed.

Lemma cart_ok_checkout_loop (oid : Z) (items : list CartItem.t) (s : DB) :
  cart_ok s -> cart_ok (checkout_loop oid items s).
Proof.
  revert s. induction items as [|i items IH]; intros s Hok; cbn; [exact Hok|].
  destruct (item_product s i); apply IH; [|exact Hok].
  apply cart_ok_delete. exact Hok.
Qed.

Lemma cart_ok_handle (r : Request) (s : DB) :
  cart_ok s -> cart_ok (fst (handle r s)).
Proof.
  intros Hok.
  destruct r as [u m form|u pid m form|u pid|u pid|u iid|u]; cbn [handle].
  - unfold product_new. destruct m; [exact Hok|].
    repeat (match goal with |- context [if ?b then _ else _] => destruct b end);
      exact Hok.
  - unfold product_edit. destruct (Product_get s pid); [|exact Hok].
    destruct (negb _); [exact Hok|]. destruct m; [exact Hok|].
    destruct (negb _); [exact Hok|].
    destruct (negb _); exact Hok.
  - unfold product_delete. destruct (Product_get s pid); [|exact Hok].
    destruct (negb _); exact Hok.
  - unfold cart_add. destruct (Product_get s pid) as [p|]; [|exact Hok].
    cbn [fst]. destruct (find _ _) eqn:Hf.
    + now apply cart_ok_bump.
    + now apply cart_ok_add.
  - unfold cart_remove. destruct (CartItem_get s iid); [|exact Hok].
    destruct (negb _); [exact Hok|]. now apply cart_ok_delete.
  - unfold checkout. destruct (cart_of s u) as [|i items]; [exact Hok|].
    cbn [fst]. apply cart_ok_checkout_loop. exact Hok.
Qed.

Lemma cart_ok_run (rs : list Request) (s : DB) :
  cart_ok s -> cart_ok (run s rs).
Proof.
  revert s. induction rs as [|r rs IH]; intros s Hok; cbn; [exact Hok|].
  apply IH. now apply cart_ok_handle.
Qed.

(** ** Adding the same product twice *)

Lemma entries_for_none_find (s : DB) (u pid : Z) :
  entries_for s u pid = [] ->
  find (fun i => (CartItem.user_id i =? u) && (CartItem.product_id i =? pid))
       (cart_items s) = None.
Proof.
  unfold entries_for. induction (cart_items s) as [|i l IH]; cbn;
    [reflexivity|].
  destruct ((CartItem.user_id i =? u) && (CartItem.product_id i =? pid));
    [discriminate | exact IH].
Qed.

Lemma map_bump_fresh (l : list CartItem.t) (iid : Z) :
  (forall i, In i l -> CartItem.id i < iid) ->
  map (fun r =>
         if CartItem.id r =? iid
         then CartItem.mk (CartItem.id r) (CartItem.user_id r)
                (CartItem.product_id r) (CartItem.quantity r + 1)
         else r) l = l.
Proof.
  induction l as [|r l IH]; intros Hlt; cbn; [reflexivity|].
  rewrite IH by (intros i Hi; apply Hlt; now right).
  pose proof (Hlt r (or_introl eq_refl)).
  destruct (Z.eqb_spec (CartItem.id r) iid); [lia | reflexivity].
Qed.

Lemma find_app_none {A} (f : A -> bool) (l l' : list A) :
  find f l = None -> find f (l ++ l') = find f l'.
Proof.
  induction l as [|x l IH]; cbn; [reflexivity|].
  destruct (f x); [discriminate | exact IH].
Qed.

Lemma cart_add_twice (u pid : Z) (s : DB) (p : Product.t) :
  Product_get s pid = Some p ->
  entries_for s u pid = [] ->
  cart_items (fst (cart_add u pid (fst (cart_add u pid s))))
  = cart_items s
    ++ [CartItem.mk (next_id (map CartItem.id (cart_items s))) u pid 2].
Proof.
  intros Hg He. pose proof (Product_get_id _ _ _ Hg) as Hid.
  pose proof (entries_for_none_find _ _ _ He) as Hf.
  unfold cart_add at 2. rewrite Hg, Hid, Hf. cbn [fst].
  unfold cart_add.
  replace (Product_get (add_cart_item s _) pid) with (Some p) by (symmetry; exact Hg).
  rewrite Hid. cbn [add_cart_item cart_items].
  rewrite (find_app_none _ _ _ Hf). cbn [find CartItem.user_id CartItem.product_id].
  rewrite !Z.eqb_refl. cbn [andb fst bump_quantity cart_items products
    orders order_items CartItem.id].
  unfold add_cart_item. cbn [cart_items].
  rewrite map_app, map_bump_fresh.
  - cbn. rewrite Z.eqb_refl. reflexivity.
  - intros i Hi. apply next_id_above. now apply in_map.
Qed.

(** ** What a checkout leaves in the cart *)

Lemma filter_filter {A} (f g : A -> bool) (l : list A) :
  filter f (filter g l) = filter (fun x => g x && f x) l.
Proof.
  induction l as [|x l IH]; cbn; [reflexivity|].
  destruct (g x); cbn; [|exact IH].
  destruct (f x); now rewrite IH.
Qed.

Lemma stale_ext (s1 s2 : DB) (i : CartItem.t) :
  products s1 = products s2 -> stale s1 i = stale s2 i.
Proof. intros Hp. unfold stale. now rewrite (item_product_ext s1 s2 i Hp). Qed.

(** The loop deletes the rows whose key is that of a visited entry with a
    product, and no other row. *)
Lemma checkout_loop_cart (oid : Z) (items : list CartItem.t) (s : DB) :
  cart_items (checkout_loop oid items s)
  = filter (fun r =>
              negb (existsb (fun i => (CartItem.id i =? CartItem.id r)
                                      && negb (stale s i)) items))
      (cart_items s).
Proof.
  revert s. induction items as [|i items IH]; intros s; cbn [checkout_loop].
  - cbn. induction (cart_items s) as [|r l IHl]; cbn; [reflexivity|].
    now rewrite <- IHl.
  - destruct (item_product s i) as [p|] eqn:Hp.
    + rewrite IH. cbn [cart_items delete_cart_item add_order_item].
      rewrite filter_filter. apply filter_ext. intros r. cbn [existsb].
      unfold stale at 2. rewrite Hp. cbn [negb]. rewrite andb_true_r.
      rewrite (Z.eqb_sym (CartItem.id i) (CartItem.id r)), negb_orb.
      reflexivity.
    + rewrite IH. apply filter_ext. intros r. cbn [existsb].
      unfold stale at 2. rewrite Hp. cbn [negb]. now rewrite andb_false_r.
Qed.

Lemma NoDup_map_inj {A B} (f : A -> B) (l : list A) (x y : A) :
  NoDup (map f l) -> In x l -> In y l -> f x = f y -> x = y.
Proof.
  induction l as [|a l IH]; cbn; [contradiction|].
  intros Hnd Hx Hy Hf. inversion Hnd as [|? ? Hnotin Hnd']; subst.
  destruct Hx as [->|Hx], Hy as [->|Hy]; [reflexivity | | |now apply IH].
  - exfalso. apply Hnotin. rewrite Hf. now apply in_map.
  - exfalso. apply Hnotin. rewrite <- Hf. now apply in_map.
Qed.

(** With primary keys unique, a successful checkout leaves the owner
    exactly the entries whose product is gone. *)
Lemma checkout_leaves_stale (u : Z) (s : DB) :
  NoDup (map CartItem.id (cart_items s)) ->
  cart_of s u <> [] ->
  cart_of (fst (checkout u s)) u = filter (stale s) (cart_of s u).
Proof.
  intros Hnd Hne. rewrite (checkout_nonempty u s Hne). cbn [fst].
  set (o := Order.mk (next_id (map Order.id (orders s))) u).
  assert (Hcart :
    cart_items (checkout_loop (next_id (map Order.id (orders s)))
                  (cart_of s u) (add_order s o))
    = filter (fun r =>
                negb (existsb (fun i => (CartItem.id i =? CartItem.id r)
                                        && negb (stale s i)) (cart_of s u)))
        (cart_items s)) by exact (checkout_loop_cart _ _ _).
  unfold cart_of at 1. rewrite Hcart. unfold cart_of at 2.
  rewrite !filter_filter. apply filter_ext_in. intros r Hr.
  destruct (CartItem.user_id r =? u) eqn:Hu;
    [|now rewrite andb_false_r].
  rewrite andb_true_r. cbn [andb].
  destruct (stale s r) eqn:Hst.
  - apply negb_true_iff.
    destruct (existsb _ (cart_of s u)) eqn:He; [|reflexivity].
    apply existsb_exists in He. destruct He as (i & Hi & Hcond).
    apply andb_true_iff in Hcond. destruct Hcond as [Hid Hns].
    apply Z.eqb_eq in Hid. apply filter_In in Hi. destruct Hi as [Hi _].
    rewrite (NoDup_map_inj CartItem.id _ i r Hnd Hi Hr Hid), Hst in Hns.
    discriminate Hns.
  - apply negb_false_iff. apply existsb_exists. exists r. split.
    + apply filter_In. now split.
    + now rewrite Z.eqb_refl, Hst.
Qed.

End AppFacts.

(** * Facts about src/ecofinds-backend/app.py *)

Section BackendFacts.
Context `{PyStr} `{PyFloat}.
Import Backend.

Lemma backend_Product_get_id (s : DB) (pid : Z) (p : Product.t) :
  Product_get s pid = Some p -> Product.id p = pid.
Proof.
  unfold Product_get. intros Hf. apply find_some in Hf.
  now apply Z.eqb_eq.
Qed.

Lemma backend_checkout_loop_orders (oid : Z) (cart : Cart) (s : DB) :
  orders (checkout_loop oid cart s) = orders s
  /\ products (checkout_loop oid cart s) = products s.
Proof.
  revert s. induction cart as [|item rest IH]; intros s;
    cbn [checkout_loop]; [auto|].
  match goal with
  | |- context [checkout_loop oid rest ?s1] =>
      destruct (IH s1) as [Ho Hp]; rewrite Ho, Hp
  end.
  split; reflexivity.
Qed.


(** The session-keyed checkout empties the whole cart with
    [save_cart([])]. *)
Lemma backend_checkout_clears_cart (u : Z) (s : DB) (cart : Cart) :
  cart <> [] ->
  snd (fst (checkout u s cart)) = []
  /\ exists total,
       orders (fst (fst (checkout u s cart)))
       = orders s ++ [Order.mk (next_id (map Order.id (orders s))) u total].
Proof.
  destruct cart as [|item rest]; [congruence|]. intros _.
  unfold checkout. cbn [fst snd]. split; [reflexivity|].
  eexists. rewrite (proj1 (backend_checkout_loop_orders _ _ _)).
  reflexivity.
Qed.

Lemma backend_checkout_empty (u : Z) (s : DB) :
  checkout u s [] = (s, [], EmptyCart).
Proof. reflexivity. Qed.

(** ** Creating a listing: the category is stored as submitted *)

Lemma product_form_created (u : Z) (form : Form) (s : DB) (price : float) :
  truthy (strip (form_get form "name" "")) = true ->
  form_price form = Some price ->
  product_form u POST form s =
    (mkDB (products s ++
             [Product.mk (next_id (map Product.id (products s)))
                (strip (form_get form "name" ""))
                (strip (form_get form "description" ""))
                price (form_get form "category" "Other") u])
          (orders s) (order_items s),
     Redirect "Product created." "success" "my_listings").
Proof.
  intros Hn Hp. unfold product_form. rewrite Hp, Hn. reflexivity.
Qed.

(** ** The session cart *)

Lemma merge_quantity_some (pid : Z) (cart merged : Cart) :
  merge_quantity pid cart = Some merged ->
  map CartEntry.id merged = map CartEntry.id cart
  /\ (Forall (fun item => 1 <= CartEntry.quantity item) cart ->
      Forall (fun item => 1 <= CartEntry.quantity item) merged).
Proof.
  revert merged. induction cart as [|item rest IH]; intros merged; cbn;
    [discriminate|].
  destruct (CartEntry.id item =? pid).
  - intros Hm. injection Hm as <-. cbn. split; [reflexivity|].
    intros Hq. inversion Hq as [|? ? Hi Hrest]; subst.
    constructor; [cbn; lia | exact Hrest].
  - destruct (merge_quantity pid rest) as [rest'|]; [|discriminate].
    intros Hm. injection Hm as <-. destruct (IH rest' eq_refl) as [Hids Hq].
    cbn. split; [now rewrite Hids|].
    intros Hall. inversion Hall as [|? ? Hi Hrest]; subst.
    constructor; [exact Hi | now apply Hq].
Qed.

Lemma merge_quantity_none (pid : Z) (cart : Cart) :
  merge_quantity pid cart = None <-> ~ In pid (map CartEntry.id cart).
Proof.
  induction cart as [|item rest IH]; cbn; [tauto|].
  destruct (Z.eqb_spec (CartEntry.id item) pid) as [E|E].
  - split; [discriminate | intros Hn; exfalso; apply Hn; now left].
  - destruct (merge_quantity pid rest).
    + split; [discriminate|]. intros Hn. exfalso.
      destruct IH as [_ IH]. 
      assert (Hr : ~ In pid (map CartEntry.id rest)) by tauto.
      specialize (IH Hr). discriminate IH.
    + split; [|reflexivity]. intros _. destruct IH as [IH _].
      specialize (IH eq_refl). tauto.
Qed.

Lemma merge_quantity_last (pid : Z) (cart : Cart) (item : CartEntry.t) :
  merge_quantity pid cart = None -> CartEntry.id item = pid ->
  merge_quantity pid (cart ++ [item])
  = Some (cart ++ [CartEntry.mk (CartEntry.id item) (CartEntry.name item)
                     (CartEntry.price item) (CartEntry.quantity item + 1)]).
Proof.
  intros Hn <-. induction cart as [|x rest IH].
  - cbn. now rewrite Z.eqb_refl.
  - cbn in Hn |- *. destruct (CartEntry.id x =? CartEntry.id item);
      [discriminate|].
    destruct (merge_quantity (CartEntry.id item) rest); [discriminate|].
    now rewrite (IH eq_refl).
Qed.

Lemma backend_cart_ok_add (pid : Z) (s : DB) (cart : Cart) :
  cart_ok cart -> cart_ok (fst (add_to_cart pid s cart)).
Proof.
  intros [Hnd Hq]. unfold add_to_cart.
  destruct (Product_get s pid) as [p|] eqn:Hg; [|now split].
  cbn [fst]. destruct (merge_quantity (Product.id p) cart) as [merged|] eqn:Hm.
  - destruct (merge_quantity_some _ _ _ Hm) as [Hids Hq']. split.
    + now rewrite Hids.
    + now apply Hq'.
  - apply merge_quantity_none in Hm. split.
    + rewrite map_app. apply NoDup_app; [exact Hnd | |].
      * cbn. constructor; [intros [] | constructor].
      * intros k Hk [Hin|[]]. cbn in Hin. subst k. contradiction.
    + apply Forall_app. split; [exact Hq|].
      constructor; [cbn; lia | constructor].
Qed.

Lemma backend_cart_ok_remove (pid : Z) (cart : Cart) :
  cart_ok cart -> cart_ok (fst (remove_from_cart pid cart)).
Proof.
  intros [Hnd Hq]. unfold remove_from_cart. cbn [fst]. split.
  - now apply NoDup_map_filter.
  - apply Forall_forall. intros i Hi. apply filter_In in Hi.
    rewrite Forall_forall in Hq. now apply Hq.
Qed.

Lemma backend_cart_ok_handle (r : Request) (st : DB * Cart) :
  cart_ok (snd st) -> cart_ok (snd (fst (handle r st))).
Proof.
  destruct st as [s cart]. cbn [snd]. intros Hok.
  destruct r as [u m form|pid|pid|u]; cbn [handle].
  - destruct (product_form u m form s). exact Hok.
  - pose proof (backend_cart_ok_add pid s cart Hok) as Ha.
    destruct (add_to_cart pid s cart). exact Ha.
  - pose proof (backend_cart_ok_remove pid cart Hok) as Hr.
    destruct (remove_from_cart pid cart). exact Hr.
  - destruct cart as [|item rest]; cbn; [exact Hok|].
    split; constructor.
Qed.

Lemma backend_cart_ok_run (rs : list Request) (st : DB * Cart) :
  cart_ok (snd st) -> cart_ok (snd (run st rs)).
Proof.
  revert st. induction rs as [|r rs IH]; intros st Hok; cbn; [exact Hok|].
  apply IH. now apply backend_cart_ok_handle.
Qed.

Lemma add_to_cart_twice (pid : Z) (s : DB) (cart : Cart) (p : Product.t) :
  Product_get s pid = Some p ->
  ~ In pid (map CartEntry.id cart) ->
  fst (add_to_cart pid s (fst (add_to_cart pid s cart)))
  = cart ++ [CartEntry.mk pid (Product.name p) (Product.price p) 2].
Proof.
  intros Hg Hn. pose proof (backend_Product_get_id _ _ _ Hg) as Hid.
  apply merge_quantity_none in Hn. subst pid.
  unfold add_to_cart. rewrite Hg, Hn. cbn [fst].
  rewrite (merge_quantity_last (Product.id p) cart
             (CartEntry.mk (Product.id p) (Product.name p) (Product.price p) 1)
             Hn eq_refl).
  reflexivity.
Qed.

End BackendFacts.

(** * The claims of the specification *)

Section Claims.
Context `{PyStr} `{PyFloat}.

(** C1, as amended: when the cart of the owner is non-empty and every entry
    references a product that no longer exists, [checkout] of src/app.py
    does not fail: it answers "Checkout complete! Order created.", appends
    exactly one [Order] row owned by the owner, and creates no order line.
    Only a cart with no entry at all is answered with [EmptyCart]. *)
Theorem checkout_all_stale_creates_empty_order (u : Z) (s : App.DB) :
  App.cart_of s u <> [] ->
  (forall i, In i (App.cart_of s u) -> App.item_product s i = None) ->
  snd (App.checkout u s) = App.CheckoutComplete
  /\ App.orders (fst (App.checkout u s))
     = App.orders s
       ++ [App.Order.mk (next_id (map App.Order.id (App.orders s))) u]
  /\ App.order_items (fst (App.checkout u s)) = App.order_items s.
Proof.
  intros Hne Hstale. rewrite (checkout_nonempty u s Hne). cbn [fst snd].
  rewrite checkout_loop_all_stale.
  - repeat split.
  - intros i Hi. rewrite <- (Hstale i Hi). now apply item_product_ext.
Qed.

(** C2: the store on which [checkout] of src/app.py succeeds and leaves an
    entry behind.  User 2 holds an entry for the listed product 1 and one for
    the missing product 7; after the checkout the second is still in the
    cart. *)
Theorem checkout_keeps_stale_entry :
  snd (App.checkout 2 App.mixed_cart_db) = App.CheckoutComplete
  /\ App.cart_of (fst (App.checkout 2 App.mixed_cart_db)) 2
     = [App.CartItem.mk 2 2 7 1].
Proof. split; reflexivity. Qed.

(** C3: a successful [checkout] of src/app.py appends, for each entry of the
    owner whose product exists, one order line carrying the title and the
    price the product has in the store at the moment of the checkout and the
    quantity of the entry; whatever requests follow (edits and deletions of
    the product among them), these lines stay in the table as they are. *)
Theorem checkout_snapshots_current_product (u : Z) (s : App.DB) :
  App.cart_of s u <> [] ->
  snd (App.checkout u s) = App.CheckoutComplete
  /\ exists lines,
       App.order_items (fst (App.checkout u s)) = App.order_items s ++ lines
       /\ map App.line_fields lines
          = App.snapshot_spec s (next_id (map App.Order.id (App.orders s)))
              (App.cart_of s u)
       /\ forall rs, exists more,
            App.order_items (App.run (fst (App.checkout u s)) rs)
            = App.order_items s ++ lines ++ more.
Proof.
  intros Hne. rewrite (checkout_nonempty u s Hne). cbn [fst snd].
  split; [reflexivity|].
  match goal with
  | |- context [App.checkout_loop ?o ?l ?s1] =>
      destruct (checkout_loop_lines o l s1) as (lines & Hlines & Hfields);
      set (s' := App.checkout_loop o l s1) in *
  end.
  exists lines. split; [exact Hlines|]. split.
  - rewrite Hfields. now apply snapshot_spec_ext.
  - intros rs. destruct (run_order_items rs s') as (more & Hmore).
    exists more. rewrite Hmore, Hlines. cbn [App.add_order App.order_items].
    now rewrite app_assoc.
Qed.

(** C4: the total shown by [cart_view] of src/app.py is the sum, over the
    entries of the owner, of the current price of the product times the
    quantity, an entry whose product is gone counting for 0; and once the
    seller has edited a product, the total is the same sum taken with the new
    price for the entries that reference it. *)
Theorem cart_total_reprices (owner : Z) (s : App.DB) :
  snd (App.cart_view owner s) = App.total_spec s owner
  /\ forall seller pid form s',
       App.product_edit seller pid POST form s = (s', App.ListingUpdated) ->
       snd (App.cart_view owner s')
       = fold_right Z.add 0
           (map (fun i =>
                   match App.item_product s i with
                   | Some p =>
                       (if App.CartItem.product_id i =? pid
                        then App.parse_int (form_get form "price" "0") 0
                        else App.Product.price_rupees p)
                       * App.CartItem.quantity i
                   | None => 0
                   end)
                (App.cart_of s owner)).
Proof.
  split; [apply cart_view_total|].
  intros seller pid form s' Hedit.
  destruct (product_edit_updated _ _ _ _ _ Hedit) as (p0 & Hg0 & Hseller & ->).
  rewrite cart_view_total. unfold App.total_spec.
  change (App.cart_of (App.update_product s _) owner) with (App.cart_of s owner).
  f_equal. apply map_ext. intros i.
  unfold App.line_amount, App.item_product. rewrite Product_get_update.
  destruct (App.Product_get s (App.CartItem.product_id i)) as [r|] eqn:Hr;
    cbn [option_map]; [|reflexivity].
  rewrite (Product_get_id _ _ _ Hr). cbn [App.Product.id].
  now destruct (App.CartItem.product_id i =? pid).
Qed.

(** C5: when the cart of the owner is empty, [checkout] answers "Your cart
    is empty." and returns the store as it was, in both applications. *)
Theorem checkout_empty_cart_unchanged (u : Z) :
  (forall s, App.cart_of s u = [] -> App.checkout u s = (s, App.EmptyCart))
  /\ (forall s : Backend.DB,
        Backend.checkout u s [] = (s, [], Backend.EmptyCart)).
Proof.
  split.
  - intros s. apply checkout_empty.
  - intros s. reflexivity.
Qed.

(** C6: [product_form] of src/ecofinds-backend/app.py stores the category as
    submitted: with a name and a price it accepts, a request whose category
    is outside [CATEGORIES] is answered "Product created." and the row is
    appended with that category. *)
Theorem product_form_stores_any_category (u : Z) (form : Form)
    (s : Backend.DB) (price : float) :
  truthy (strip (form_get form "name" "")) = true ->
  Backend.form_price form = Some price ->
  str_in (form_get form "category" "Other") Backend.CATEGORIES = false ->
  exists p,
    Backend.product_form u POST form s
    = (Backend.mkDB (Backend.products s ++ [p]) (Backend.orders s)
         (Backend.order_items s),
       Redirect "Product created." "success" "my_listings")
    /\ Backend.Product.category p = form_get form "category" "Other".
Proof.
  intros Hn Hp _. eexists. split.
  - apply product_form_created; eassumption.
  - reflexivity.
Qed.

(** C7, as amended: a deletion by the owner removes the [Product] row and
    nothing else.  Every cart keeps its rows, those that reference the
    deleted product included; the product can no longer be looked up, and
    such entries count for 0 in the total of their owner. *)
Theorem product_delete_keeps_cart_rows (u pid : Z) (s s' : App.DB) :
  App.product_delete u pid s = (s', App.ListingDeleted) ->
  App.cart_items s' = App.cart_items s
  /\ App.Product_get s' pid = None
  /\ forall owner,
       snd (App.cart_view owner s')
       = fold_right Z.add 0
           (map (fun i => if App.CartItem.product_id i =? pid then 0
                          else App.line_amount s i)
                (App.cart_of s owner)).
Proof.
  intros Hdel.
  destruct (product_delete_deleted _ _ _ _ Hdel) as (p & Hg & Hseller & ->).
  split; [reflexivity|]. split; [apply Product_get_delete_same|].
  intros owner. rewrite cart_view_total. unfold App.total_spec.
  change (App.cart_of (App.delete_product s pid) owner)
    with (App.cart_of s owner).
  f_equal. apply map_ext. intros i. unfold App.line_amount, App.item_product.
  destruct (Z.eqb_spec (App.CartItem.product_id i) pid) as [E|E].
  - rewrite E. now rewrite Product_get_delete_same.
  - now rewrite Product_get_delete_other.
Qed.

(** C8: in both applications every request keeps the cart free of duplicate
    (owner, product) entries and every quantity at least 1, so any sequence
    of requests does; and adding a product the owner does not hold twice in a
    row yields one entry for it, with quantity 2. *)
Theorem cart_invariant_preserved :
  (forall s rs, App.cart_ok s -> App.cart_ok (App.run s rs))
  /\ (forall u pid s p,
        App.Product_get s pid = Some p ->
        App.entries_for s u pid = [] ->
        App.entries_for
          (fst (App.cart_add u pid (fst (App.cart_add u pid s)))) u pid
        = [App.CartItem.mk (next_id (map App.CartItem.id (App.cart_items s)))
             u pid 2])
  /\ (forall st rs,
        Backend.cart_ok (snd st) -> Backend.cart_ok (snd (Backend.run st rs)))
  /\ (forall pid s cart p,
        Backend.Product_get s pid = Some p ->
        ~ In pid (map Backend.CartEntry.id cart) ->
        fst (Backend.add_to_cart pid s (fst (Backend.add_to_cart pid s cart)))
        = cart ++ [Backend.CartEntry.mk pid (Backend.Product.name p)
                     (Backend.Product.price p) 2]).
Proof.
  split; [|split; [|split]].
  - intros s rs. apply cart_ok_run.
  - intros u pid s p Hg He. unfold App.entries_for at 1.
    rewrite (cart_add_twice u pid s p Hg He), filter_app.
    fold (App.entries_for s u pid). rewrite He. cbn.
    now rewrite !Z.eqb_refl.
  - intros st rs. apply backend_cart_ok_run.
  - intros pid s cart p. apply add_to_cart_twice.
Qed.

(** C9: for a product of another seller, [product_edit] and
    [product_delete] of src/app.py answer "You can only edit/delete your own
    listings." and return the store as it was, so the product row keeps
    every field, its seller included. *)
Theorem non_owner_cannot_edit_or_delete (u pid : Z) (m : Method)
    (form : Form) (s : App.DB) (p : App.Product.t) :
  App.Product_get s pid = Some p ->
  App.Product.seller_id p <> u ->
  App.product_edit u pid m form s = (s, App.NotOwnerEdit)
  /\ App.product_delete u pid s = (s, App.NotOwnerDelete)
  /\ App.Product_get (fst (App.product_edit u pid m form s)) pid = Some p
  /\ App.Product_get (fst (App.product_delete u pid s)) pid = Some p.
Proof.
  intros Hg Hne.
  rewrite (product_edit_not_owner u pid m form s p Hg Hne).
  rewrite (product_delete_not_owner u pid s p Hg Hne).
  cbn [fst]. auto.
Qed.

(** C10: [parse_int] of src/app.py returns the default where [int] raises:
    0 for a text [int] rejects, for the empty text, and for a missing price
    field (read as "0"); a creation request with a title and a valid
    category whose price is missing or rejected by [int] is answered
    "Listing created." and stores the product with price 0; and a request
    to [product_new] ends in an uncaught exception only with a price that
    [int] accepted (and the column cannot hold). *)
Theorem parse_int_total_price_defaults :
  (forall value, int_of_str value = None -> App.parse_int value 0 = 0)
  /\ App.parse_int "" 0 = 0
  /\ (forall form, form_lookup form "price" = None ->
        App.parse_int (form_get form "price" "0") 0 = 0)
  /\ (forall u form s,
        truthy (strip (form_get form "title" "")) = true ->
        str_in (strip (form_get form "category" "")) App.CATEGORIES = true ->
        form_lookup form "price" = None
        \/ int_of_str (form_get form "price" "0") = None ->
        exists p,
          App.product_new u POST form s
          = (App.add_product s p, App.ListingCreated)
          /\ App.Product.price_rupees p = 0)
  /\ (forall u m form s,
        snd (App.product_new u m form s) = ServerError ->
        exists n, int_of_str (form_get form "price" "0") = Some n
                  /\ sqlite_integer n = false).
Proof.
  assert (Hmissing : forall form, form_lookup form "price" = None ->
            App.parse_int (form_get form "price" "0") 0 = 0).
  { intros form Hl. unfold form_get. rewrite Hl. unfold App.parse_int.
    now rewrite int_of_str_zero. }
  split; [|split; [|split; [|split]]].
  - intros value. apply parse_int_default.
  - apply parse_int_default, int_of_str_empty.
  - exact Hmissing.
  - intros u form s Ht Hc Hprice.
    assert (Hzero : App.parse_int (form_get form "price" "0") 0 = 0).
    { destruct Hprice as [Hl|Hi]; [now apply Hmissing|].
      now apply parse_int_default. }
    eexists. split.
    + apply product_new_valid; try assumption. now rewrite Hzero.
    + exact Hzero.
  - intros u m form s. unfold App.product_new. destruct m; [discriminate|].
    destruct (negb _ || negb _); [discriminate|].
    destruct (negb (str_in _ _)); [discriminate|].
    unfold App.parse_int.
    destruct (int_of_str (form_get form "price" "0")) as [n|] eqn:Hn.
    + destruct (sqlite_integer n) eqn:Hfit; cbn [negb]; [discriminate|].
      intros _. now exists n.
    + discriminate.
Qed.

End Claims.

(** * The claims on concrete stores *)

(** C1 as stated fails: user 2 holds one entry, its product is gone, and the
    checkout answers success and adds an order. *)
Lemma checkout_all_stale_counterexample :
  App.cart_of App.stale_cart_db 2 <> []
  /\ (forall i, In i (App.cart_of App.stale_cart_db 2) ->
        App.item_product App.stale_cart_db i = None)
  /\ ~ (snd (App.checkout 2 App.stale_cart_db) = App.EmptyCart
        /\ App.orders (fst (App.checkout 2 App.stale_cart_db))
           = App.orders App.stale_cart_db).
Proof.
  split; [cbn; discriminate|]. split.
  - intros i [<-|[]]. reflexivity.
  - intros [Hresp _]. discriminate Hresp.
Qed.

(** C1, as amended, on that store: one order for user 2, no line. *)
Lemma checkout_all_stale_witness :
  App.cart_of App.stale_cart_db 2 <> []
  /\ (forall i, In i (App.cart_of App.stale_cart_db 2) ->
        App.item_product App.stale_cart_db i = None)
  /\ snd (App.checkout 2 App.stale_cart_db) = App.CheckoutComplete
  /\ App.orders (fst (App.checkout 2 App.stale_cart_db)) = [App.Order.mk 1 2]
  /\ App.order_items (fst (App.checkout 2 App.stale_cart_db)) = [].
Proof.
  assert (Hne : App.cart_of App.stale_cart_db 2 <> []) by (cbn; discriminate).
  assert (Hstale : forall i, In i (App.cart_of App.stale_cart_db 2) ->
                     App.item_product App.stale_cart_db i = None).
  { intros i [<-|[]]. reflexivity. }
  split; [exact Hne|]. split; [exact Hstale|].
  exact (checkout_all_stale_creates_empty_order 2 App.stale_cart_db Hne Hstale).
Defined.

(** C3 on the store where user 2 holds two bottles: one line, with the
    title and the price of the listing. *)
Lemma checkout_snapshots_witness :
  App.cart_of App.listed_db 2 <> []
  /\ exists lines,
       App.order_items (fst (App.checkout 2 App.listed_db)) = [] ++ lines
       /\ map App.line_fields lines = [(1, 1, "Bottle", 10, 2)]
       /\ forall rs, exists more,
            App.order_items (App.run (fst (App.checkout 2 App.listed_db)) rs)
            = [] ++ lines ++ more.
Proof.
  assert (Hne : App.cart_of App.listed_db 2 <> []) by (cbn; discriminate).
  split; [exact Hne|].
  exact (proj2 (checkout_snapshots_current_product 2 App.listed_db Hne)).
Defined.

(** C4 on the same store: the total is 20, and 50 once the seller has set
    the price to 25. *)
Lemma cart_total_reprices_witness :
  let form := [("title", "Bottle"); ("category", "Sports"); ("price", "25")] in
  let s' := fst (App.product_edit 1 1 POST form App.listed_db) in
  App.product_edit 1 1 POST form App.listed_db = (s', App.ListingUpdated)
  /\ snd (App.cart_view 2 App.listed_db) = 20
  /\ snd (App.cart_view 2 s') = 50.
Proof.
  intros form s'.
  assert (Hedit : App.product_edit 1 1 POST form App.listed_db
                  = (s', App.ListingUpdated)) by reflexivity.
  split; [exact Hedit|]. split; [reflexivity|].
  exact (proj2 (cart_total_reprices 2 App.listed_db) 1 1 form s' Hedit).
Defined.

(** C5 for user 1, who holds nothing. *)
Lemma checkout_empty_cart_witness :
  App.cart_of App.listed_db 1 = []
  /\ App.checkout 1 App.listed_db = (App.listed_db, App.EmptyCart).
Proof.
  split; [reflexivity|].
  exact (proj1 (checkout_empty_cart_unchanged 1) App.listed_db eq_refl).
Defined.

(** C6 on a request with the category "Garden", which is not in
    [Backend.CATEGORIES]: the listing is created. *)
Lemma product_form_stores_any_category_witness :
  let form := [("name", "Lamp"); ("category", "Garden")] in
  truthy (strip (form_get form "name" "")) = true
  /\ Backend.form_price form = Some (float_of_Z 0)
  /\ str_in (form_get form "category" "Other") Backend.CATEGORIES = false
  /\ exists p,
       Backend.product_form 1 POST form (Backend.mkDB [] [] [])
       = (Backend.mkDB [p] [] [],
          Redirect "Product created." "success" "my_listings")
       /\ Backend.Product.category p = "Garden".
Proof.
  intros form. split; [reflexivity|]. split; [reflexivity|].
  split; [reflexivity|].
  exact (product_form_stores_any_category 1 form (Backend.mkDB [] [] [])
           (float_of_Z 0) eq_refl eq_refl eq_refl).
Defined.

(** C7 as stated fails: user 1 deletes the own product 1 and the entry of
    user 2 that references it is still in the table. *)
Lemma product_delete_no_cascade_counterexample :
  App.product_delete 1 1 App.listed_db
  = (App.mkDB [] [App.CartItem.mk 1 2 1 2] [] [], App.ListingDeleted)
  /\ ~ (forall owner i,
          In i (App.cart_of (fst (App.product_delete 1 1 App.listed_db)) owner)
          -> App.CartItem.product_id i <> 1).
Proof.
  split; [reflexivity|].
  intros Hnone. apply (Hnone 2 (App.CartItem.mk 1 2 1 2)).
  - left. reflexivity.
  - reflexivity.
Qed.

(** C7, as amended, on that deletion: the entry stays and counts for 0. *)
Lemma product_delete_keeps_cart_rows_witness :
  let s' := App.mkDB [] [App.CartItem.mk 1 2 1 2] [] [] in
  App.product_delete 1 1 App.listed_db = (s', App.ListingDeleted)
  /\ App.cart_items s' = App.cart_items App.listed_db
  /\ App.Product_get s' 1 = None
  /\ snd (App.cart_view 2 s') = 0.
Proof.
  intros s'.
  assert (Hdel : App.product_delete 1 1 App.listed_db
                 = (s', App.ListingDeleted)) by reflexivity.
  split; [exact Hdel|].
  destruct (product_delete_keeps_cart_rows 1 1 App.listed_db s' Hdel)
    as (Hcart & Hget & Htotal).
  split; [exact Hcart|]. split; [exact Hget|]. exact (Htotal 2).
Defined.

(** C8 on a run of each application. *)
Lemma cart_invariant_witness :
  let rs := [App.CartAdd 2 1; App.CartAdd 3 1; App.CartRemove 2 1;
             App.Checkout 3] in
  let brs := [Backend.AddToCart 1; Backend.AddToCart 1;
              Backend.RemoveFromCart 1; Backend.Checkout 1] in
  (App.cart_ok App.listed_db /\ App.cart_ok (App.run App.listed_db rs))
  /\ (App.Product_get App.listed_db 1 = Some App.bottle
      /\ App.entries_for App.listed_db 3 1 = []
      /\ App.entries_for
           (fst (App.cart_add 3 1 (fst (App.cart_add 3 1 App.listed_db)))) 3 1
         = [App.CartItem.mk 2 3 1 2])
  /\ (Backend.cart_ok (@nil Backend.CartEntry.t)
      /\ Backend.cart_ok (snd (Backend.run (lamp_db, []) brs)))
  /\ (Backend.Product_get lamp_db 1 = Some lamp
      /\ fst (Backend.add_to_cart 1 lamp_db
                (fst (Backend.add_to_cart 1 lamp_db [])))
         = [Backend.CartEntry.mk 1 "Lamp" (float_of_int 12) 2]).
Proof.
  intros rs brs.
  destruct (@cart_invariant_preserved AsciiPy Binary64)
    as (Hrun & Htwice & Hbrun & Hbtwice).
  assert (Hok : App.cart_ok App.listed_db).
  { split.
    - constructor; [intros [] | constructor].
    - constructor; [cbn; discriminate | constructor]. }
  assert (Hbok : Backend.cart_ok (@nil Backend.CartEntry.t)).
  { split; constructor. }
  split; [split; [exact Hok | exact (Hrun App.listed_db rs Hok)]|].
  split.
  { split; [reflexivity|]. split; [reflexivity|].
    exact (Htwice 3 1 App.listed_db App.bottle eq_refl eq_refl). }
  split; [split; [exact Hbok | exact (Hbrun (lamp_db, []) brs Hbok)]|].
  split; [reflexivity|].
  exact (Hbtwice 1 lamp_db [] lamp eq_refl (fun F : False => F)).
Defined.

(** C9 for user 2 on the listing of user 1. *)
Lemma non_owner_witness :
  let form := [("title", "Taken"); ("category", "Toys"); ("price", "1")] in
  App.Product_get App.listed_db 1 = Some App.bottle
  /\ App.Product.seller_id App.bottle <> 2
  /\ App.product_edit 2 1 POST form App.listed_db
     = (App.listed_db, App.NotOwnerEdit)
  /\ App.product_delete 2 1 App.listed_db
     = (App.listed_db, App.NotOwnerDelete).
Proof.
  intros form.
  assert (Hne : App.Product.seller_id App.bottle <> 2) by (cbn; discriminate).
  split; [reflexivity|]. split; [exact Hne|].
  destruct (non_owner_cannot_edit_or_delete 2 1 POST form App.listed_db
              App.bottle eq_refl Hne) as (Hedit & Hdel & _).
  split; [exact Hedit | exact Hdel].
Defined.

(** C10 on the price "ten". *)
Lemma parse_int_witness :
  let form := [("title", "Bottle"); ("category", "Sports");
               ("price", "ten")] in
  int_of_str "ten" = None
  /\ App.parse_int "ten" 0 = 0
  /\ App.parse_int (form_get [("title", "Bottle")] "price" "0") 0 = 0
  /\ truthy (strip (form_get form "title" "")) = true
  /\ str_in (strip (form_get form "category" "")) App.CATEGORIES = true
  /\ exists p,
       App.product_new 1 POST form App.empty_db
       = (App.add_product App.empty_db p, App.ListingCreated)
       /\ App.Product.price_rupees p = 0.
Proof.
  intros form.
  destruct (@parse_int_total_price_defaults AsciiPy)
    as (Hreject & _ & Hmissing & Hnew & _).
  split; [reflexivity|]. split; [exact (Hreject "ten" eq_refl)|].
  split; [exact (Hmissing [("title", "Bottle")] eq_refl)|].
  split; [reflexivity|]. split; [reflexivity|].
  exact (Hnew 1 form App.empty_db eq_refl eq_refl (or_intror eq_refl)).
Defined.

(** * Further facts about src/app.py *)

Section AppListings.
Context `{PyStr}.
Import App.

Lemma find_app_some {A} (f : A -> bool) (l l' : list A) (x : A) :
  find f l = Some x -> find f (l ++ l') = Some x.
Proof.
  induction l as [|y l IH]; cbn; [discriminate|].
  destruct (f y); [trivial | exact IH].
Qed.

Lemma find_fresh_none {A} (pk : A -> Z) (l : list A) :
  find (fun x => pk x =? next_id (map pk l)) l = None.
Proof.
  destruct (find _ l) as [x|] eqn:Hf; [|reflexivity].
  apply find_some_id in Hf. destruct Hf as [Hin Hk].
  pose proof (next_id_above (map pk l) (pk x) (in_map pk l x Hin)). lia.
Qed.

Lemma Product_get_add_other (s : DB) (p : Product.t) (q : Z) :
  q <> Product.id p -> Product_get (add_product s p) q = Product_get s q.
Proof.
  intros Hq. unfold Product_get, add_product. cbn [products].
  destruct (find _ (products s)) as [r|] eqn:Hf.
  - now apply find_app_some.
  - rewrite (find_app_none _ _ _ Hf). cbn.
    destruct (Z.eqb_spec (Product.id p) q); [congruence | reflexivity].
Qed.

(** X1: [product_new] creates the listing exactly when the stripped title is
    not empty, the stripped category is one of [CATEGORIES] and the price fits
    the column; in every other case the store is returned as it was. *)
Theorem product_new_created_iff (u : Z) (form : Form) (s : DB) :
  (snd (product_new u POST form s) = ListingCreated
   <-> truthy (strip (form_get form "title" "")) = true
       /\ str_in (strip (form_get form "category" "")) CATEGORIES = true
       /\ sqlite_integer (parse_int (form_get form "price" "0") 0) = true)
  /\ (snd (product_new u POST form s) <> ListingCreated ->
      fst (product_new u POST form s) = s).
Proof.
  unfold product_new.
  destruct (truthy (strip (form_get form "title" ""))) eqn:Ht; cbn [negb orb].
  - destruct (truthy (strip (form_get form "category" ""))) eqn:Hcat;
      cbn [negb].
    + destruct (str_in _ CATEGORIES) eqn:Hc; cbn [negb].
      * destruct (sqlite_integer _) eqn:Hfit; cbn [negb fst snd].
        -- split; [split; auto | intros Hneq; now contradiction Hneq].
        -- split; [|reflexivity]. split; [discriminate|].
           intros (_ & _ & F). discriminate F.
      * cbn [fst snd]. split; [|reflexivity]. split; [discriminate|].
        intros (_ & F & _). discriminate F.
    + cbn [fst snd]. split; [|reflexivity]. split; [discriminate|].
      intros (_ & Hc & _). unfold truthy in Hcat.
      apply negb_false_iff, String.eqb_eq in Hcat. rewrite Hcat in Hc.
      discriminate Hc.
  - cbn [fst snd]. split; [|reflexivity]. split; [discriminate|].
    intros (F & _). discriminate F.
Qed.

(** X2: a listing just created is owned by the user who sent the request,
    has a primary key no row had, can be looked up under it, and leaves
    every other lookup and the other tables as they were. *)
Theorem product_new_lookup (u : Z) (form : Form) (s s' : DB) :
  product_new u POST form s = (s', ListingCreated) ->
  exists p,
    products s' = products s ++ [p]
    /\ Product.seller_id p = u
    /\ Product_get s (Product.id p) = None
    /\ Product_get s' (Product.id p) = Some p
    /\ (forall q, q <> Product.id p -> Product_get s' q = Product_get s q)
    /\ cart_items s' = cart_items s
    /\ orders s' = orders s
    /\ order_items s' = order_items s.
Proof.
  intros Hnew.
  destruct (product_new_created_iff u form s) as [[Hiff _] _].
  destruct Hiff as (Ht & Hc & Hfit); [now rewrite Hnew|].
  rewrite (product_new_valid u form s Ht Hc Hfit) in Hnew.
  injection Hnew as <-. eexists. split; [reflexivity|].
  split; [reflexivity|]. cbn [Product.id].
  assert (Hfresh : Product_get s (next_id (map Product.id (products s))) = None)
    by apply find_fresh_none.
  split; [exact Hfresh|]. split.
  - unfold Product_get, add_product. cbn [products].
    rewrite (find_app_none _ _ _ Hfresh). cbn. now rewrite Z.eqb_refl.
  - split; [|now repeat split].
    intros q Hq. now apply Product_get_add_other.
Qed.


(** X4: a saved edit replaces the fields of the listing by those of the
    form and keeps its primary key and its seller; the lookup of every other
    key, the keys of the table and the other tables are as before. *)
Theorem product_edit_effect (u pid : Z) (form : Form) (s s' : DB) :
  product_edit u pid POST form s = (s', ListingUpdated) ->
  Product_get s' pid
  = Some (Product.mk pid (strip (form_get form "title" ""))
            (strip (form_get form "description" ""))
            (strip (form_get form "category" ""))
            (parse_int (form_get form "price" "0") 0)
            (if truthy (strip (form_get form "image_url" ""))
             then Some (strip (form_get form "image_url" "")) else None)
            u)
  /\ (forall q, q <> pid -> Product_get s' q = Product_get s q)
  /\ map Product.id (products s') = map Product.id (products s)
  /\ cart_items s' = cart_items s
  /\ orders s' = orders s
  /\ order_items s' = order_items s.
Proof.
  intros Hedit.
  destruct (product_edit_updated _ _ _ _ _ Hedit) as (p & Hg & Hu & ->).
  split; [|split; [|split; [|now repeat split]]].
  - rewrite Product_get_update, Hg. cbn [option_map Product.id].
    now rewrite (Product_get_id _ _ _ Hg), Z.eqb_refl.
  - intros q Hq. rewrite Product_get_update.
    destruct (Product_get s q) as [r|] eqn:Hr; [|reflexivity].
    cbn [option_map Product.id]. rewrite (Product_get_id _ _ _ Hr).
    destruct (Z.eqb_spec q pid); [contradiction | reflexivity].
  - unfold update_product. cbn [products Product.id].
    rewrite map_map. apply map_ext. intros r.
    destruct (Z.eqb_spec (Product.id r) pid) as [E|E]; [now rewrite E|].
    reflexivity.
Qed.

(** X5: a request never changes a listing of a seller other than the user
    who sent it: whatever the request, the lookup of such a listing returns
    the same row afterwards. *)
Theorem listing_of_another_seller_kept (r : Request) (s : DB) (pid : Z)
    (p : Product.t) :
  Product_get s pid = Some p ->
  Product.seller_id p <> requester r ->
  Product_get (fst (handle r s)) pid = Some p.
Proof.
  intros Hg Hne.
  assert (Hsame : forall s' : DB, products s' = products s ->
            Product_get s' pid = Some p).
  { intros s' Hp. unfold Product_get. rewrite Hp. exact Hg. }
  destruct r as [u m form|u pid' m form|u pid'|u pid'|u iid|u];
    cbn [handle requester] in *.
  - unfold product_new. destruct m; [exact Hg|].
    destruct (negb _ || negb _); [exact Hg|].
    destruct (negb (str_in _ _)); [exact Hg|].
    destruct (negb (sqlite_integer _)); [exact Hg|].
    cbn [fst]. unfold Product_get, add_product. cbn [products].
    now apply find_app_some.
  - destruct (Z.eq_dec pid' pid) as [->|Hpid].
    + now rewrite (product_edit_not_owner u pid m form s p Hg Hne).
    + unfold product_edit. destruct (Product_get s pid') as [p'|] eqn:Hg';
        [|exact Hg].
      destruct (negb _); [exact Hg|]. destruct m; [exact Hg|].
      destruct (negb _); [exact Hg|]. destruct (negb _); [exact Hg|].
      cbn [fst]. rewrite Product_get_update, Hg. cbn [option_map Product.id].
      rewrite (Product_get_id _ _ _ Hg), (Product_get_id _ _ _ Hg').
      destruct (Z.eqb_spec pid pid'); [congruence | reflexivity].
  - destruct (Z.eq_dec pid' pid) as [->|Hpid].
    + now rewrite (product_delete_not_owner u pid s p Hg Hne).
    + unfold product_delete. destruct (Product_get s pid') as [p'|] eqn:Hg';
        [|exact Hg].
      destruct (negb _); [exact Hg|]. cbn [fst].
      rewrite (Product_get_id _ _ _ Hg').
      rewrite Product_get_delete_other; [exact Hg | congruence].
  - unfold cart_add. destruct (Product_get s pid'); [|exact Hg].
    cbn [fst]. destruct (find _ _); now apply Hsame.
  - unfold cart_remove. destruct (CartItem_get s iid); [|exact Hg].
    destruct (negb _); [exact Hg|]. now apply Hsame.
  - unfold checkout. destruct (cart_of s u); [exact Hg|]. cbn [fst].
    apply Hsame. now rewrite checkout_loop_products.
Qed.

End AppListings.

Section AppKeys.
Context `{PyStr}.
Import App.

Lemma NoDup_fresh (ids : list Z) : NoDup ids -> NoDup (ids ++ [next_id ids]).
Proof.
  intros Hnd. apply NoDup_app; [exact Hnd | |].
  - constructor; [intros [] | constructor].
  - intros x Hx [<-|[]]. pose proof (next_id_above ids _ Hx). lia.
Qed.

Lemma pk_unique_add_order_item (s : DB) (oid pid : Z) (title : string)
    (price qty : Z) :
  pk_unique s ->
  pk_unique (add_order_item s
               (OrderItem.mk (next_id (map OrderItem.id (order_items s)))
                  oid pid title price qty)).
Proof.
  intros (Hp & Hc & Ho & Hl). repeat split; try assumption.
  cbn [add_order_item order_items]. rewrite map_app. now apply NoDup_fresh.
Qed.

Lemma pk_unique_delete_cart_item (s : DB) (iid : Z) :
  pk_unique s -> pk_unique (delete_cart_item s iid).
Proof.
  intros (Hp & Hc & Ho & Hl). repeat split; try assumption.
  cbn [delete_cart_item cart_items]. now apply NoDup_map_filter.
Qed.

Lemma pk_unique_checkout_loop (oid : Z) (items : list CartItem.t) (s : DB) :
  pk_unique s -> pk_unique (checkout_loop oid items s).
Proof.
  revert s. induction items as [|i items IH]; intros s Hpk;
    cbn [checkout_loop]; [exact Hpk|].
  destruct (item_product s i); apply IH; [|exact Hpk].
  now apply pk_unique_delete_cart_item, pk_unique_add_order_item.
Qed.

Lemma pk_unique_handle (r : Request) (s : DB) :
  pk_unique s -> pk_unique (fst (handle r s)).
Proof.
  intros Hpk. pose proof Hpk as (Hp & Hc & Ho & Hl).
  destruct r as [u m form|u pid m form|u pid|u pid|u iid|u]; cbn [handle].
  - unfold product_new. destruct m; [exact Hpk|].
    destruct (negb _ || negb _); [exact Hpk|].
    destruct (negb (str_in _ _)); [exact Hpk|].
    destruct (negb (sqlite_integer _)); [exact Hpk|].
    repeat split; try assumption.
    cbn [fst add_product products]. rewrite map_app. now apply NoDup_fresh.
  - unfold product_edit. destruct (Product_get s pid) as [p|] eqn:Hg;
      [|exact Hpk].
    destruct (negb _); [exact Hpk|]. destruct m; [exact Hpk|].
    destruct (negb _); [exact Hpk|]. destruct (negb _); [exact Hpk|].
    repeat split; try assumption.
    cbn [fst update_product products Product.id]. rewrite map_map.
    erewrite map_ext; [exact Hp|]. intros r. cbn beta.
    destruct (Z.eqb_spec (Product.id r) (Product.id p));
      cbn [Product.id]; congruence.
  - unfold product_delete. destruct (Product_get s pid); [|exact Hpk].
    destruct (negb _); [exact Hpk|]. repeat split; try assumption.
    cbn [fst delete_product products]. now apply NoDup_map_filter.
  - unfold cart_add. destruct (Product_get s pid); [|exact Hpk].
    cbn [fst]. destruct (find _ _) as [item|].
    + repeat split; try assumption. cbn [bump_quantity cart_items].
      rewrite map_map. erewrite map_ext; [exact Hc|]. intros r. cbn beta.
      now destruct (CartItem.id r =? CartItem.id item).
    + repeat split; try assumption. cbn [add_cart_item cart_items].
      rewrite map_app. now apply NoDup_fresh.
  - unfold cart_remove. destruct (CartItem_get s iid); [|exact Hpk].
    destruct (negb _); [exact Hpk|]. now apply pk_unique_delete_cart_item.
  - unfold checkout. destruct (cart_of s u); [exact Hpk|]. cbn [fst].
    apply pk_unique_checkout_loop. repeat split; try assumption.
    cbn [add_order orders]. rewrite map_app. now apply NoDup_fresh.
Qed.

(** X6: every request keeps the primary keys of the four tables unique,
    hence so does every sequence of requests: a row appended takes a key
    above all those present, an update keeps the keys, a deletion only
    removes rows. *)
Theorem pk_unique_preserved (rs : list Request) (s : DB) :
  pk_unique s -> pk_unique (run s rs).
Proof.
  revert s. induction rs as [|r rs IH]; intros s Hpk; cbn; [exact Hpk|].
  apply IH. now apply pk_unique_handle.
Qed.

(** ** The orders table *)

Lemma handle_orders (r : Request) (s : DB) :
  orders (fst (handle r s)) = orders s
  \/ orders (fst (handle r s))
     = orders s ++ [Order.mk (next_id (map Order.id (orders s))) (requester r)].
Proof.
  destruct r as [u m form|u pid m form|u pid|u pid|u iid|u];
    cbn [handle requester].
  - left. unfold product_new. destruct m; [reflexivity|].
    destruct (negb _ || negb _); [reflexivity|].
    destruct (negb (str_in _ _)); [reflexivity|].
    now destruct (negb (sqlite_integer _)).
  - left. unfold product_edit. destruct (Product_get s pid); [|reflexivity].
    destruct (negb _); [reflexivity|]. destruct m; [reflexivity|].
    destruct (negb _); [reflexivity|]. now destruct (negb _).
  - left. unfold product_delete. destruct (Product_get s pid); [|reflexivity].
    now destruct (negb _).
  - left. unfold cart_add. destruct (Product_get s pid); [|reflexivity].
    cbn [fst]. now destruct (find _ _).
  - left. unfold cart_remove. destruct (CartItem_get s iid); [|reflexivity].
    now destruct (negb _).
  - unfold checkout. destruct (cart_of s u); [now left|]. right. cbn [fst].
    now rewrite checkout_loop_orders.
Qed.

(** X7: the [Order] table is only ever appended to.  One request adds no
    order or exactly one, owned by the user who sent it and under a key no
    order had; after any sequence of requests the orders present before are
    still there, unchanged and in the same place. *)
Theorem orders_append_only (s : DB) :
  (forall r,
     orders (fst (handle r s)) = orders s
     \/ exists o, orders (fst (handle r s)) = orders s ++ [o]
                  /\ Order.user_id o = requester r
                  /\ ~ In (Order.id o) (map Order.id (orders s)))
  /\ forall rs, exists more, orders (run s rs) = orders s ++ more.
Proof.
  split.
  - intros r. destruct (handle_orders r s) as [Hsame|Hadd]; [now left|].
    right. eexists. split; [exact Hadd|]. split; [reflexivity|].
    cbn [Order.id]. intros Hin.
    pose proof (next_id_above _ _ Hin). lia.
  - intros rs. revert s. induction rs as [|r rs IH]; intros s; cbn.
    + exists []. now rewrite app_nil_r.
    + destruct (IH (fst (handle r s))) as (more & Hmore).
      unfold run in Hmore. rewrite Hmore.
      destruct (handle_orders r s) as [->| ->].
      * now exists more.
      * eexists. now rewrite <- app_assoc.
Qed.

End AppKeys.

Section AppCart.
Context `{PyStr}.
Import App.

Lemma filter_absorb {A} (f g : A -> bool) (l : list A) :
  (forall x, In x l -> f x = true -> g x = true) ->
  filter f (filter g l) = filter f l.
Proof.
  intros Himp. rewrite filter_filter. apply filter_ext_in. intros x Hx.
  destruct (f x) eqn:Hf; [|now rewrite andb_false_r].
  now rewrite (Himp x Hx Hf).
Qed.

Lemma filter_map_fixed {A} (f : A -> bool) (h : A -> A) (l : list A) :
  (forall x, f (h x) = f x) ->
  (forall x, In x l -> f x = true -> h x = x) ->
  filter f (map h l) = filter f l.
Proof.
  intros Hf Hfix. induction l as [|x l IH]; cbn; [reflexivity|].
  rewrite Hf, IH by (intros y Hy; apply Hfix; now right).
  destruct (f x) eqn:Hx; [|reflexivity].
  now rewrite (Hfix x (or_introl eq_refl) Hx).
Qed.

Lemma sum_app (l l' : list Z) :
  fold_right Z.add 0 (l ++ l')
  = fold_right Z.add 0 l + fold_right Z.add 0 l'.
Proof. induction l as [|x l IH]; cbn [fold_right app]; lia. Qed.

(** X8: with primary keys unique, a request leaves the cart of every user
    other than the one who sent it exactly as it was. *)
Theorem cart_of_others_untouched (r : Request) (s : DB) (v : Z) :
  NoDup (map CartItem.id (cart_items s)) ->
  v <> requester r ->
  cart_of (fst (handle r s)) v = cart_of s v.
Proof.
  intros Hnd Hv.
  assert (Hother : forall i x, In i (cart_items s) -> In x (cart_items s) ->
            CartItem.user_id i = requester r -> CartItem.id i = CartItem.id x ->
            (CartItem.user_id x =? v) = false).
  { intros i x Hi Hx Hu Hid.
    rewrite <- (NoDup_map_inj CartItem.id _ i x Hnd Hi Hx Hid), Hu.
    apply Z.eqb_neq. congruence. }
  destruct r as [u m form|u pid m form|u pid|u pid|u iid|u];
    cbn [handle requester] in *.
  - unfold product_new. destruct m; [reflexivity|].
    destruct (negb _ || negb _); [reflexivity|].
    destruct (negb (str_in _ _)); [reflexivity|].
    now destruct (negb (sqlite_integer _)).
  - unfold product_edit. destruct (Product_get s pid); [|reflexivity].
    destruct (negb _); [reflexivity|]. destruct m; [reflexivity|].
    destruct (negb _); [reflexivity|]. now destruct (negb _).
  - unfold product_delete. destruct (Product_get s pid); [|reflexivity].
    now destruct (negb _).
  - unfold cart_add. destruct (Product_get s pid) as [p|]; [|reflexivity].
    cbn [fst]. destruct (find _ _) as [item|] eqn:Hf.
    + apply find_some in Hf. destruct Hf as [Hin Hkey].
      apply andb_true_iff in Hkey. destruct Hkey as [Hu _].
      apply Z.eqb_eq in Hu.
      unfold cart_of, bump_quantity. cbn [cart_items].
      apply filter_map_fixed.
      * intros x. now destruct (CartItem.id x =? CartItem.id item).
      * intros x Hx Hxv.
        destruct (Z.eqb_spec (CartItem.id x) (CartItem.id item)) as [E|E];
          [|reflexivity].
        rewrite (Hother item x Hin Hx Hu (eq_sym E)) in Hxv. discriminate Hxv.
    + unfold cart_of, add_cart_item. cbn [cart_items].
      rewrite filter_app. cbn [filter CartItem.user_id].
      destruct (Z.eqb_spec u v); [congruence|]. now rewrite app_nil_r.
  - unfold cart_remove. destruct (CartItem_get s iid) as [item|] eqn:Hg;
      [|reflexivity].
    destruct (Z.eqb_spec (CartItem.user_id item) u) as [Hu|Hu]; cbn [negb];
      [|reflexivity].
    apply find_some_id in Hg. destruct Hg as [Hin _].
    unfold cart_of, delete_cart_item. cbn [fst cart_items].
    apply filter_absorb. intros x Hx Hxv. apply negb_true_iff.
    destruct (Z.eqb_spec (CartItem.id x) (CartItem.id item)) as [E|E];
      [|reflexivity].
    rewrite (Hother item x Hin Hx Hu (eq_sym E)) in Hxv. discriminate Hxv.
  - unfold checkout. destruct (cart_of s u) as [|i0 items0] eqn:Hcart;
      [reflexivity|].
    cbn [fst]. rewrite <- Hcart.
    set (o := Order.mk (next_id (map Order.id (orders s))) u).
    assert (Hloop :
      cart_items (checkout_loop (Order.id o) (cart_of s u) (add_order s o))
      = filter (fun x =>
                  negb (existsb (fun i => (CartItem.id i =? CartItem.id x)
                                          && negb (stale s i)) (cart_of s u)))
          (cart_items s)) by exact (checkout_loop_cart _ _ _).
    unfold cart_of at 1. rewrite Hloop. apply filter_absorb.
    intros x Hx Hxv. apply negb_true_iff.
    destruct (existsb _ (cart_of s u)) eqn:He; [|reflexivity].
    apply existsb_exists in He. destruct He as (i & Hi & Hcond).
    apply andb_true_iff in Hcond. destruct Hcond as [Hid _].
    apply Z.eqb_eq in Hid. apply filter_In in Hi. destruct Hi as [Hi Hiu].
    apply Z.eqb_eq in Hiu.
    rewrite (Hother i x Hi Hx Hiu Hid) in Hxv. discriminate Hxv.
Qed.

(** ** Adding to the cart *)

Lemma map_bump_notin (l : list CartItem.t) (iid : Z) :
  ~ In iid (map CartItem.id l) ->
  map (fun r =>
         if CartItem.id r =? iid
         then CartItem.mk (CartItem.id r) (CartItem.user_id r)
                (CartItem.product_id r) (CartItem.quantity r + 1)
         else r) l = l.
Proof.
  induction l as [|r l IH]; intros Hn; cbn; [reflexivity|].
  rewrite IH by (intros Hin; apply Hn; now right).
  destruct (Z.eqb_spec (CartItem.id r) iid) as [E|E]; [|reflexivity].
  exfalso. apply Hn. now left.
Qed.

Lemma bump_split (l : list CartItem.t) (item : CartItem.t) :
  NoDup (map CartItem.id l) -> In item l ->
  exists l1 l2,
    l = l1 ++ item :: l2
    /\ map (fun r =>
              if CartItem.id r =? CartItem.id item
              then CartItem.mk (CartItem.id r) (CartItem.user_id r)
                     (CartItem.product_id r) (CartItem.quantity r + 1)
              else r) l
       = l1 ++ CartItem.mk (CartItem.id item) (CartItem.user_id item)
                 (CartItem.product_id item) (CartItem.quantity item + 1)
               :: l2.
Proof.
  intros Hnd Hin. destruct (in_split _ _ Hin) as (l1 & l2 & ->).
  exists l1, l2. split; [reflexivity|].
  rewrite map_app in Hnd. cbn [map] in Hnd.
  pose proof (NoDup_remove_2 _ _ _ Hnd) as Hnotin.
  rewrite map_app. cbn [map]. rewrite Z.eqb_refl.
  rewrite !map_bump_notin; [reflexivity | |];
    intros Hi; apply Hnotin, in_or_app; [now right | now left].
Qed.

Lemma line_amount_ext (s1 s2 : DB) (i : CartItem.t) :
  products s1 = products s2 -> line_amount s1 i = line_amount s2 i.
Proof.
  intros Hp. unfold line_amount. now rewrite (item_product_ext s1 s2 i Hp).
Qed.

Lemma total_spec_ext (s1 s2 : DB) (u : Z) :
  products s1 = products s2 -> cart_items s1 = cart_items s2 ->
  total_spec s1 u = total_spec s2 u.
Proof.
  intros Hp Hc. unfold total_spec, cart_of. rewrite Hc. f_equal.
  apply map_ext. intros i. now apply line_amount_ext.
Qed.

(** X9: with primary keys unique, adding a listed product raises the
    quantity the user holds of it by exactly 1 and the total of the user's
    cart by the current price of the product, whether the entry is new or
    already there. *)
Theorem cart_add_raises_total (u pid : Z) (s : DB) (p : Product.t) :
  NoDup (map CartItem.id (cart_items s)) ->
  Product_get s pid = Some p ->
  quantity_held (fst (cart_add u pid s)) u pid = quantity_held s u pid + 1
  /\ snd (cart_view u (fst (cart_add u pid s)))
     = snd (cart_view u s) + Product.price_rupees p.
Proof.
  intros Hnd Hg. pose proof (Product_get_id _ _ _ Hg) as Hid.
  rewrite !cart_view_total. unfold cart_add. rewrite Hg, Hid. cbn [fst].
  destruct (find _ (cart_items s)) as [item|] eqn:Hf.
  - apply find_some in Hf. destruct Hf as [Hin Hkey].
    apply andb_true_iff in Hkey. destruct Hkey as [Hu Hp].
    destruct (bump_split _ item Hnd Hin) as (l1 & l2 & Hl & Hmap).
    assert (Hprod : item_product s item = Some p).
    { unfold item_product. apply Z.eqb_eq in Hp. now rewrite Hp. }
    unfold quantity_held, entries_for, total_spec, cart_of.
    cbn [bump_quantity cart_items]. rewrite Hmap, Hl.
    rewrite !filter_app. cbn [filter CartItem.user_id CartItem.product_id].
    rewrite Hu, Hp. cbn [andb]. rewrite !map_app, !sum_app.
    cbn [map fold_right CartItem.quantity].
    change (line_amount (bump_quantity s (CartItem.id item)))
      with (line_amount s).
    assert (Hnew : line_amount s
                     (CartItem.mk (CartItem.id item) (CartItem.user_id item)
                        (CartItem.product_id item) (CartItem.quantity item + 1))
                   = Product.price_rupees p * (CartItem.quantity item + 1)).
    { unfold line_amount, item_product in *.
      cbn [CartItem.product_id CartItem.quantity]. now rewrite Hprod. }
    assert (Hold : line_amount s item
                   = Product.price_rupees p * CartItem.quantity item).
    { unfold line_amount. now rewrite Hprod. }
    rewrite Hnew, Hold. split; lia.
  - unfold quantity_held, entries_for, total_spec, cart_of.
    cbn [add_cart_item cart_items]. rewrite !filter_app.
    cbn [filter CartItem.user_id CartItem.product_id].
    rewrite !Z.eqb_refl. cbn [andb]. rewrite !map_app, !sum_app.
    cbn [map fold_right CartItem.quantity].
    match goal with
    | |- context [line_amount (add_cart_item s ?i)] =>
        change (line_amount (add_cart_item s i)) with (line_amount s);
        assert (Hnew : line_amount s i = Product.price_rupees p * 1)
    end.
    { unfold line_amount, item_product.
      cbn [CartItem.product_id CartItem.quantity]. now rewrite Hg. }
    rewrite Hnew. split; lia.
Qed.

End AppCart.

Section AppCheckout.
Context `{PyStr}.
Import App.

Lemma find_pk_filter_same {A} (pk : A -> Z) (k : Z) (l : list A) :
  find (fun x => pk x =? k) (filter (fun x => negb (pk x =? k)) l) = None.
Proof.
  induction l as [|x l IH]; cbn; [reflexivity|].
  destruct (pk x =? k) eqn:E; cbn; [exact IH|]. now rewrite E.
Qed.

Lemma find_pk_filter_other {A} (pk : A -> Z) (k q : Z) (l : list A) :
  q <> k ->
  find (fun x => pk x =? q) (filter (fun x => negb (pk x =? k)) l)
  = find (fun x => pk x =? q) l.
Proof.
  intros Hq. induction l as [|x l IH]; cbn; [reflexivity|].
  destruct (Z.eqb_spec (pk x) k) as [E|E]; cbn.
  - destruct (Z.eqb_spec (pk x) q); [congruence | exact IH].
  - destruct (pk x =? q); [reflexivity | exact IH].
Qed.

(** X10: [cart_remove] answers 404 for an unknown entry and refuses the
    entry of another user, the store staying as it was; for an entry of the
    user it deletes that row: the entry can no longer be looked up, every
    other entry is looked up as before, and the other tables are untouched. *)
Theorem cart_remove_effect (u iid : Z) (s : DB) :
  (CartItem_get s iid = None -> cart_remove u iid s = (s, NotFound))
  /\ (forall item,
        CartItem_get s iid = Some item -> CartItem.user_id item <> u ->
        cart_remove u iid s
        = (s, Redirect "Cannot modify another user's cart." "danger"
                "cart_view"))
  /\ (forall item,
        CartItem_get s iid = Some item -> CartItem.user_id item = u ->
        snd (cart_remove u iid s)
        = Redirect "Removed from cart." "info" "cart_view"
        /\ CartItem_get (fst (cart_remove u iid s)) iid = None
        /\ (forall j, j <> iid ->
              CartItem_get (fst (cart_remove u iid s)) j = CartItem_get s j)
        /\ products (fst (cart_remove u iid s)) = products s
        /\ orders (fst (cart_remove u iid s)) = orders s
        /\ order_items (fst (cart_remove u iid s)) = order_items s).
Proof.
  unfold cart_remove. split; [|split].
  - intros ->. reflexivity.
  - intros item -> Hne.
    destruct (Z.eqb_spec (CartItem.user_id item) u); [contradiction|].
    reflexivity.
  - intros item Hg Hu. pose proof (find_some_id _ _ _ _ Hg) as [_ Hid].
    rewrite Hg. destruct (Z.eqb_spec (CartItem.user_id item) u);
      [|contradiction].
    cbn [negb fst snd]. rewrite Hid. split; [reflexivity|].
    unfold CartItem_get, delete_cart_item. cbn [cart_items].
    split; [apply find_pk_filter_same|]. split; [|now repeat split].
    intros j Hj. now apply find_pk_filter_other.
Qed.

Lemma filter_fresh_id (l : list CartItem.t) :
  filter (fun r => negb (CartItem.id r =? next_id (map CartItem.id l))) l = l.
Proof.
  apply forallb_filter_id. apply forallb_forall. intros x Hx.
  apply negb_true_iff, Z.eqb_neq.
  pose proof (next_id_above _ _ (in_map CartItem.id l x Hx)). lia.
Qed.

(** X11: adding a listed product the user does not hold and then removing
    the entry just created gives back the store the user started from. *)
Theorem cart_add_then_remove (u pid : Z) (s : DB) (p : Product.t) :
  Product_get s pid = Some p ->
  entries_for s u pid = [] ->
  fst (cart_remove u (next_id (map CartItem.id (cart_items s)))
         (fst (cart_add u pid s))) = s.
Proof.
  intros Hg He. pose proof (Product_get_id _ _ _ Hg) as Hid.
  pose proof (entries_for_none_find _ _ _ He) as Hf.
  unfold cart_add. rewrite Hg, Hid, Hf. cbn [fst].
  unfold cart_remove, CartItem_get. cbn [add_cart_item cart_items].
  rewrite (find_app_none _ _ _ (find_fresh_none CartItem.id (cart_items s))).
  cbn [find CartItem.id]. rewrite Z.eqb_refl.
  cbn [CartItem.user_id]. rewrite Z.eqb_refl. cbn [negb fst].
  unfold delete_cart_item, add_cart_item.
  cbn [cart_items products orders order_items CartItem.id].
  rewrite filter_app, filter_fresh_id. cbn [filter CartItem.id].
  rewrite Z.eqb_refl. cbn [negb]. rewrite app_nil_r. now destruct s.
Qed.

(** ** The amount of an order *)

Lemma snapshot_spec_amount (s : DB) (oid : Z) (items : list CartItem.t)
    (lines : list OrderItem.t) :
  map line_fields lines = snapshot_spec s oid items ->
  lines_amount lines = fold_right Z.add 0 (map (line_amount s) items)
  /\ forall oi, In oi lines -> OrderItem.order_id oi = oid.
Proof.
  revert lines. induction items as [|i items IH]; intros lines Hl.
  - destruct lines; [|discriminate Hl]. split; [reflexivity | intros ? []].
  - unfold snapshot_spec in Hl. cbn [flat_map] in Hl.
    fold (snapshot_spec s oid items) in Hl. cbn [map fold_right].
    unfold line_amount at 1.
    destruct (item_product s i) as [p|].
    + destruct lines as [|oi lines]; [discriminate Hl|].
      cbn [map app] in Hl.
      injection Hl as Hoid Hpid Htitle Hprice Hqty Hrest.
      destruct (IH lines Hrest) as [Hsum Hall].
      split.
      * unfold lines_amount in *. cbn [map fold_right].
        rewrite Hsum, Hprice, Hqty. reflexivity.
      * intros x [<-|Hx]; [exact Hoid | now apply Hall].
    + cbn [app] in Hl. destruct (IH lines Hl) as [Hsum Hall].
      split; [now rewrite Hsum | exact Hall].
Qed.

(** X12: a successful checkout appends one order of the user and, under
    its key, lines whose prices times quantities add up to the total the cart
    page showed for that user in the store the checkout started from. *)
Theorem checkout_order_amount (u : Z) (s : DB) :
  cart_of s u <> [] ->
  orders (fst (checkout u s))
  = orders s ++ [Order.mk (next_id (map Order.id (orders s))) u]
  /\ exists lines,
       order_items (fst (checkout u s)) = order_items s ++ lines
       /\ lines_amount lines = snd (cart_view u s)
       /\ forall oi, In oi lines ->
            OrderItem.order_id oi = next_id (map Order.id (orders s)).
Proof.
  intros Hne. rewrite (checkout_nonempty u s Hne). cbn [fst].
  split; [now rewrite checkout_loop_orders|].
  match goal with
  | |- context [checkout_loop ?o ?l ?s1] =>
      destruct (checkout_loop_lines o l s1) as (lines & Hlines & Hfields);
      rewrite (snapshot_spec_ext s1 s o l eq_refl) in Hfields
  end.
  exists lines. split; [exact Hlines|].
  destruct (snapshot_spec_amount _ _ _ _ Hfields) as [Hsum Hall].
  split; [|exact Hall]. now rewrite cart_view_total.
Qed.

(** X13: with primary keys unique and no entry of the user referencing a
    missing product, a successful checkout leaves the user's cart empty, so
    that sending the checkout again is answered "Your cart is empty." and
    changes nothing: no second order is created. *)
Theorem checkout_twice_refused (u : Z) (s : DB) :
  NoDup (map CartItem.id (cart_items s)) ->
  cart_of s u <> [] ->
  (forall i, In i (cart_of s u) -> stale s i = false) ->
  snd (checkout u s) = CheckoutComplete
  /\ cart_of (fst (checkout u s)) u = []
  /\ checkout u (fst (checkout u s)) = (fst (checkout u s), EmptyCart).
Proof.
  intros Hnd Hne Hlive.
  assert (Hempty : cart_of (fst (checkout u s)) u = []).
  { rewrite (checkout_leaves_stale u s Hnd Hne). clear Hne.
    induction (cart_of s u) as [|i items IH]; [reflexivity|].
    cbn [filter]. rewrite (Hlive i (or_introl eq_refl)).
    apply IH. intros j Hj. apply Hlive. now right. }
  split; [now rewrite (checkout_nonempty u s Hne)|].
  split; [exact Hempty|]. now apply checkout_empty.
Qed.

End AppCheckout.

(** * Facts about the accounts of src/app.py *)

Section AppAccounts.
Context `{PyStr} `{PyLower} `{Werkzeug}.
Import App.

Lemma User_by_email_none (users : list User.t) (e : string) :
  User_by_email users e = None -> ~ In e (map User.email users).
Proof.
  intros Hf Hin. apply in_map_iff in Hin. destruct Hin as (x & Hx & Hin).
  pose proof (find_none _ _ Hf x Hin) as Hno. cbn beta in Hno.
  rewrite Hx, String.eqb_refl in Hno. discriminate Hno.
Qed.

Lemma User_by_email_in (users : list User.t) (e : string) :
  In e (map User.email users) -> exists x, User_by_email users e = Some x.
Proof.
  intros Hin. destruct (User_by_email users e) as [x|] eqn:Hf; [now exists x|].
  now apply User_by_email_none in Hf.
Qed.

Lemma signup_cases (m : Method) (form : Form) (salt : Z)
    (users : list User.t) :
  signup m form salt users
  = (users ++
       [User.mk (next_id (map User.id users))
          (strip (lower (form_get form "email" "")))
          (strip (form_get form "username" ""))
          (generate_password_hash (form_get form "password" "") salt)],
     Redirect "Signup successful. Please log in." "success" "login")
    /\ m = POST
    /\ User_by_email users (strip (lower (form_get form "email" ""))) = None
    /\ truthy (strip (lower (form_get form "email" ""))) = true
    /\ truthy (strip (form_get form "username" "")) = true
    /\ truthy (form_get form "password" "") = true
  \/ fst (signup m form salt users) = users
     /\ snd (signup m form salt users)
        <> Redirect "Signup successful. Please log in." "success" "login".
Proof.
  unfold signup. destruct m; [right; split; [reflexivity | discriminate]|].
  destruct (truthy (strip (lower (form_get form "email" "")))); cbn [negb orb];
    [|right; split; [reflexivity | discriminate]].
  destruct (truthy (strip (form_get form "username" ""))); cbn [negb orb];
    [|right; split; [reflexivity | discriminate]].
  destruct (truthy (form_get form "password" "")); cbn [negb];
    [|right; split; [reflexivity | discriminate]].
  destruct (User_by_email users _) eqn:Hf;
    [right; split; [reflexivity | discriminate]|].
  left. repeat split.
Qed.

Lemma dashboard_columns (u : Z) (m : Method) (form : Form)
    (users : list User.t) :
  map User.id (fst (dashboard u m form users)) = map User.id users
  /\ map User.email (fst (dashboard u m form users)) = map User.email users
  /\ map User.password_hash (fst (dashboard u m form users))
     = map User.password_hash users.
Proof.
  unfold dashboard. destruct m; [now repeat split|].
  destruct (negb _); [now repeat split|]. cbn [fst].
  rewrite !map_map. repeat split; apply map_ext; intros x;
    now destruct (User.id x =? u).
Qed.

Lemma handle_account_keys (r : AccountRequest) (users : list User.t) :
  NoDup (map User.email users) /\ NoDup (map User.id users) ->
  NoDup (map User.email (fst (handle_account r users)))
  /\ NoDup (map User.id (fst (handle_account r users))).
Proof.
  intros [He Hi]. destruct r as [m form salt|u m form]; cbn [handle_account].
  - destruct (signup_cases m form salt users)
      as [(-> & _ & Hnone & _)|[-> _]]; [|now split].
    cbn [fst]. rewrite !map_app. split.
    + apply NoDup_app; [exact He | |].
      * constructor; [intros [] | constructor].
      * intros e Hin [<-|[]]. now apply (User_by_email_none _ _ Hnone).
    + now apply NoDup_fresh.
  - destruct (dashboard_columns u m form users) as (-> & -> & _). now split.
Qed.

(** X14: every sequence of sign-ups and profile edits keeps the e-mail
    addresses of the [User] table pairwise distinct, and its primary keys
    too: a sign-up is stored only when its normalised address is not taken. *)
Theorem accounts_stay_unique (rs : list AccountRequest)
    (users : list User.t) :
  NoDup (map User.email users) -> NoDup (map User.id users) ->
  NoDup (map User.email (run_accounts users rs))
  /\ NoDup (map User.id (run_accounts users rs)).
Proof.
  revert users. induction rs as [|r rs IH]; intros users He Hi; cbn;
    [now split|].
  destruct (handle_account_keys r users (conj He Hi)) as [He' Hi'].
  now apply IH.
Qed.

Lemma find_map_email (h : User.t -> User.t) (e : string)
    (users : list User.t) :
  (forall x, User.email (h x) = User.email x) ->
  User_by_email (map h users) e = option_map h (User_by_email users e).
Proof.
  intros Hh. unfold User_by_email.
  induction users as [|x users IH]; cbn; [reflexivity|].
  rewrite Hh. destruct (String.eqb (User.email x) e); [reflexivity | exact IH].
Qed.

Lemma handle_account_lookup (r : AccountRequest) (users : list User.t)
    (e : string) (x : User.t) :
  User_by_email users e = Some x ->
  exists x', User_by_email (fst (handle_account r users)) e = Some x'
    /\ User.id x' = User.id x
    /\ User.password_hash x' = User.password_hash x.
Proof.
  intros Hf. destruct r as [m form salt|u m form]; cbn [handle_account].
  - destruct (signup_cases m form salt users) as [(-> & _)|[-> _]].
    + exists x. split; [|now split]. cbn [fst]. now apply find_app_some.
    + now exists x.
  - unfold dashboard. destruct m; [now exists x|].
    destruct (negb _); [now exists x|]. cbn [fst].
    rewrite find_map_email, Hf by (intros y; now destruct (User.id y =? u)).
    cbn [option_map]. eexists. split; [reflexivity|].
    now destruct (User.id x =? u).
Qed.

Lemma run_accounts_lookup (rs : list AccountRequest) (users : list User.t)
    (e : string) (x : User.t) :
  User_by_email users e = Some x ->
  exists x', User_by_email (run_accounts users rs) e = Some x'
    /\ User.id x' = User.id x
    /\ User.password_hash x' = User.password_hash x.
Proof.
  revert users x. induction rs as [|r rs IH]; intros users x Hf; cbn.
  - now exists x.
  - destruct (handle_account_lookup r users e x Hf) as (x1 & Hf1 & Hid1 & Hh1).
    destruct (IH _ x1 Hf1) as (x2 & Hf2 & Hid2 & Hh2).
    exists x2. split; [exact Hf2|]. split; congruence.
Qed.

Lemma signup_lookup (form : Form) (salt : Z) (users users1 : list User.t) :
  signup POST form salt users
  = (users1, Redirect "Signup successful. Please log in." "success" "login") ->
  User_by_email users1 (strip (lower (form_get form "email" "")))
  = Some (User.mk (next_id (map User.id users))
            (strip (lower (form_get form "email" "")))
            (strip (form_get form "username" ""))
            (generate_password_hash (form_get form "password" "") salt)).
Proof.
  intros Hs. destruct (signup_cases POST form salt users)
    as [(Heq & _ & Hnone & _)|[_ Hneq]].
  - rewrite Heq in Hs. injection Hs as <-. unfold User_by_email in *.
    rewrite (find_app_none _ _ _ Hnone). cbn [find User.email].
    now rewrite String.eqb_refl.
  - rewrite Hs in Hneq. now contradiction Hneq.
Qed.

(** X15: an e-mail address stays taken.  After a sign-up was stored,
    whatever sign-ups and profile edits follow, a sign-up whose address
    normalises (lower case, stripped) to the same text stores nothing, and
    is answered "Email already registered." when its other fields are
    filled. *)
Theorem email_stays_taken (form form' : Form) (salt salt' : Z)
    (users users1 : list User.t) (rs : list AccountRequest) :
  signup POST form salt users
  = (users1, Redirect "Signup successful. Please log in." "success" "login") ->
  strip (lower (form_get form' "email" ""))
  = strip (lower (form_get form "email" "")) ->
  fst (signup POST form' salt' (run_accounts users1 rs))
  = run_accounts users1 rs
  /\ (truthy (strip (form_get form' "username" "")) = true ->
      truthy (form_get form' "password" "") = true ->
      snd (signup POST form' salt' (run_accounts users1 rs))
      = Redirect "Email already registered." "warning" "signup").
Proof.
  intros Hs He.
  destruct (run_accounts_lookup rs users1 _ _ (signup_lookup _ _ _ _ Hs))
    as (x & Hx & _).
  destruct (signup_cases POST form salt users)
    as [(_ & _ & _ & Hemail & _)|[_ Hneq]];
    [|rewrite Hs in Hneq; now contradiction Hneq].
  unfold signup. rewrite He, Hemail, Hx. cbn [negb orb].
  split.
  - now destruct (negb _ || negb _).
  - intros -> ->. reflexivity.
Qed.

(** X16: provided the hash of a password checks against that password, a
    user whose sign-up was stored can log in with the same form, whatever
    sign-ups and profile edits happened in between: the session then holds
    the primary key the sign-up was given. *)
Theorem signup_then_login (form : Form) (salt : Z)
    (users users1 : list User.t) (rs : list AccountRequest)
    (session : option Z) :
  (forall password s,
     check_password_hash (generate_password_hash password s) password = true) ->
  signup POST form salt users
  = (users1, Redirect "Signup successful. Please log in." "success" "login") ->
  login POST form (run_accounts users1 rs) session
  = (Some (next_id (map User.id users)),
     Redirect "Welcome back!" "success" "index").
Proof.
  intros Hhash Hs.
  destruct (run_accounts_lookup rs users1 _ _ (signup_lookup _ _ _ _ Hs))
    as (x & Hx & Hid & Hpw).
  unfold login. rewrite Hx, Hpw, Hid. cbn [User.password_hash User.id].
  now rewrite Hhash.
Qed.

(** X17: [login] opens a session only for a stored user whose e-mail is
    the normalised address of the form and whose hash checks against the
    password of the form; in every other case the session is left as it was,
    and an unknown address and a wrong password get the same answer. *)
Theorem login_needs_matching_hash (form : Form) (users : list User.t)
    (session : option Z) :
  (snd (login POST form users session)
   = Redirect "Welcome back!" "success" "index" ->
   exists user,
     In user users
     /\ User.email user = strip (lower (form_get form "email" ""))
     /\ check_password_hash (User.password_hash user)
          (form_get form "password" "") = true
     /\ fst (login POST form users session) = Some (User.id user))
  /\ (snd (login POST form users session)
      <> Redirect "Welcome back!" "success" "index" ->
      login POST form users session
      = (session, Redirect "Invalid email or password" "danger" "login")).
Proof.
  unfold login.
  destruct (User_by_email users _) as [user|] eqn:Hf.
  - apply find_some in Hf. destruct Hf as [Hin He].
    apply String.eqb_eq in He.
    destruct (check_password_hash _ _) eqn:Hc; cbn [fst snd].
    + split; [|intros Hneq; now contradiction Hneq].
      intros _. exists user. auto.
    + split; [discriminate | reflexivity].
  - cbn [fst snd]. split; [discriminate | reflexivity].
Qed.

(** X18: the profile edit refuses an empty (stripped) name and otherwise
    renames the logged-in user only: primary keys, addresses and hashes of
    the table are as before, every row of the user carries the new name and
    every row of another user is unchanged. *)
Theorem dashboard_renames_own_row (u : Z) (form : Form)
    (users : list User.t) :
  (truthy (strip (form_get form "username" "")) = false ->
   dashboard u POST form users
   = (users, Redirect "Username cannot be empty." "danger" "dashboard"))
  /\ (truthy (strip (form_get form "username" "")) = true ->
      snd (dashboard u POST form users)
      = Redirect "Profile updated." "success" "dashboard"
      /\ map User.id (fst (dashboard u POST form users)) = map User.id users
      /\ map User.email (fst (dashboard u POST form users))
         = map User.email users
      /\ map User.password_hash (fst (dashboard u POST form users))
         = map User.password_hash users
      /\ (forall x, In x (fst (dashboard u POST form users)) ->
            User.id x = u ->
            User.username x = strip (form_get form "username" ""))
      /\ (forall x, In x users -> User.id x <> u ->
            In x (fst (dashboard u POST form users)))).
Proof.
  split.
  - unfold dashboard. intros ->. reflexivity.
  - intros Ht.
    destruct (dashboard_columns u POST form users) as (Hid & He & Hh).
    split; [unfold dashboard; now rewrite Ht|].
    split; [exact Hid|]. split; [exact He|]. split; [exact Hh|].
    unfold dashboard. rewrite Ht. cbn [negb fst]. split.
    + intros x Hx Hu. apply in_map_iff in Hx. destruct Hx as (y & Hy & _).
      destruct (Z.eqb_spec (User.id y) u) as [E|E]; subst x;
        [reflexivity | contradiction].
    + intros x Hx Hu. apply in_map_iff. exists x. split; [|exact Hx].
      destruct (Z.eqb_spec (User.id x) u); [contradiction | reflexivity].
Qed.

End AppAccounts.

(** * Further facts about src/ecofinds-backend/app.py *)

Section BackendMore.
Context `{PyStr} `{PyFloat}.
Import Backend.

Lemma merge_quantity_sum (pid : Z) (c merged : Cart) :
  merge_quantity pid c = Some merged ->
  fold_right Z.add 0 (map CartEntry.quantity merged)
  = fold_right Z.add 0 (map CartEntry.quantity c) + 1.
Proof.
  revert merged. induction c as [|item rest IH]; intros merged; cbn;
    [discriminate|].
  destruct (CartEntry.id item =? pid).
  - intros Hm. injection Hm as <-. cbn. lia.
  - destruct (merge_quantity pid rest) as [rest'|]; [|discriminate].
    intros Hm. injection Hm as <-. cbn. rewrite (IH rest' eq_refl). lia.
Qed.

(** X19: adding a listed product raises the cart count shown on the
    dashboard by exactly 1, whether the product was in the cart or not; for
    an unknown product the answer is 404 and the cart is as it was. *)
Theorem add_to_cart_counts_one (u pid : Z) (s : DB) (c : Cart) :
  (forall p, Product_get s pid = Some p ->
     snd (dashboard u s (fst (add_to_cart pid s c)))
     = snd (dashboard u s c) + 1)
  /\ (Product_get s pid = None -> add_to_cart pid s c = (c, NotFound)).
Proof.
  unfold add_to_cart. split.
  - intros p ->. unfold dashboard. cbn [fst snd]. rewrite !fold_left_add.
    destruct (merge_quantity (Product.id p) c) as [merged|] eqn:Hm.
    + rewrite (merge_quantity_sum _ _ _ Hm). lia.
    + rewrite map_app, sum_app. cbn. lia.
  - intros ->. reflexivity.
Qed.

Lemma filter_id_notin (pid : Z) (c : Cart) :
  ~ In pid (map CartEntry.id c) ->
  filter (fun item => negb (CartEntry.id item =? pid)) c = c.
Proof.
  intros Hn. apply forallb_filter_id, forallb_forall. intros x Hx.
  apply negb_true_iff, Z.eqb_neq. intros E. apply Hn. rewrite <- E.
  now apply in_map.
Qed.

Lemma add_to_cart_new_entry (pid : Z) (s : DB) (c : Cart) (p : Product.t) :
  Product_get s pid = Some p ->
  ~ In pid (map CartEntry.id c) ->
  fst (add_to_cart pid s c)
  = c ++ [CartEntry.mk pid (Product.name p) (Product.price p) 1].
Proof.
  intros Hg Hn. pose proof (backend_Product_get_id _ _ _ Hg) as Hid.
  apply merge_quantity_none in Hn. subst pid.
  unfold add_to_cart. now rewrite Hg, Hn.
Qed.

(** X20: after [remove_from_cart] no dict of the cart carries the product
    id, the dicts of other products are kept in order, removing again
    changes nothing, and removing a product just added to a cart that did
    not hold it gives the cart back. *)
Theorem remove_from_cart_effect (pid : Z) (c : Cart) :
  ~ In pid (map CartEntry.id (fst (remove_from_cart pid c)))
  /\ (forall q, q <> pid ->
        filter (fun item => CartEntry.id item =? q)
          (fst (remove_from_cart pid c))
        = filter (fun item => CartEntry.id item =? q) c)
  /\ fst (remove_from_cart pid (fst (remove_from_cart pid c)))
     = fst (remove_from_cart pid c)
  /\ (forall s p,
        Product_get s pid = Some p -> ~ In pid (map CartEntry.id c) ->
        fst (remove_from_cart pid (fst (add_to_cart pid s c))) = c).
Proof.
  unfold remove_from_cart. cbn [fst].
  assert (Hgone : ~ In pid (map CartEntry.id
                    (filter (fun item => negb (CartEntry.id item =? pid)) c))).
  { intros Hin. apply in_map_iff in Hin. destruct Hin as (x & Hx & Hin).
    apply filter_In in Hin. destruct Hin as [_ Hne].
    rewrite Hx, Z.eqb_refl in Hne. discriminate Hne. }
  split; [exact Hgone|]. split; [|split].
  - intros q Hq. rewrite filter_filter. apply filter_ext. intros x.
    destruct (Z.eqb_spec (CartEntry.id x) pid) as [E|E]; cbn [negb andb];
      [|reflexivity].
    symmetry. apply Z.eqb_neq. congruence.
  - now apply filter_id_notin.
  - intros s p Hg Hn. rewrite (add_to_cart_new_entry pid s c p Hg Hn).
    rewrite filter_app, (filter_id_notin pid c Hn). cbn [filter CartEntry.id].
    rewrite Z.eqb_refl. cbn [negb]. now rewrite app_nil_r.
Qed.

(** ** The catalogue and the session cart *)

Lemma backend_product_form_products (u : Z) (m : Method) (form : Form)
    (s : DB) :
  exists more,
    products (fst (product_form u m form s)) = products s ++ more
    /\ orders (fst (product_form u m form s)) = orders s
    /\ order_items (fst (product_form u m form s)) = order_items s.
Proof.
  unfold product_form. destruct m;
    [exists []; now rewrite app_nil_r|].
  destruct (form_price form); [|exists []; now rewrite app_nil_r].
  destruct (negb _); [exists []; now rewrite app_nil_r|].
  eexists. cbn [fst products orders order_items]. now repeat split.
Qed.

Lemma backend_handle_products (r : Request) (st : DB * Cart) :
  exists more,
    products (fst (fst (handle r st))) = products (fst st) ++ more.
Proof.
  destruct st as [s c]. cbn [fst].
  destruct r as [u m form|pid|pid|u]; cbn [handle].
  - destruct (backend_product_form_products u m form s) as (more & Hp & _).
    destruct (product_form u m form s). now exists more.
  - destruct (add_to_cart pid s c). exists []. now rewrite app_nil_r.
  - destruct (remove_from_cart pid c). exists []. now rewrite app_nil_r.
  - destruct c as [|item rest]; cbn [checkout fst];
      [exists []; now rewrite app_nil_r|].
    rewrite (proj2 (backend_checkout_loop_orders _ _ _)).
    exists []. now rewrite app_nil_r.
Qed.

(** X21: the session-keyed application never edits or removes a listing:
    after any sequence of requests the listings present before are still in
    the table, unchanged and in the same place, and each can still be looked
    up under its key. *)
Theorem backend_listings_append_only (rs : list Request) (st : DB * Cart) :
  (exists more, products (fst (run st rs)) = products (fst st) ++ more)
  /\ forall pid p,
       Product_get (fst st) pid = Some p ->
       Product_get (fst (run st rs)) pid = Some p.
Proof.
  assert (Hgrow : exists more,
            products (fst (run st rs)) = products (fst st) ++ more).
  { revert st. induction rs as [|r rs IH]; intros st; cbn.
    - exists []. now rewrite app_nil_r.
    - destruct (IH (fst (handle r st))) as (m2 & H2).
      destruct (backend_handle_products r st) as (m1 & H1).
      exists (m1 ++ m2). unfold run in H2. rewrite H2, H1.
      now rewrite app_assoc. }
  split; [exact Hgrow|].
  intros pid p Hg. destruct Hgrow as (more & Hmore).
  unfold Product_get in *. rewrite Hmore. now apply find_app_some.
Qed.

Lemma cart_matches_add (pid : Z) (s : DB) (c : Cart) :
  cart_matches_catalog s c ->
  cart_matches_catalog s (fst (add_to_cart pid s c)).
Proof.
  intros Hok. unfold add_to_cart.
  destruct (Product_get s pid) as [p|] eqn:Hg; [|exact Hok]. cbn [fst].
  destruct (merge_quantity (Product.id p) c) as [merged|] eqn:Hm.
  - clear Hg. revert merged Hm Hok. generalize (Product.id p) as k.
    induction c as [|x rest IH]; intros k merged Hm Hok; cbn in Hm;
      [discriminate|].
    destruct (CartEntry.id x =? k).
    + injection Hm as <-. intros item [<-|Hin].
      * exact (Hok x (or_introl eq_refl)).
      * apply Hok. now right.
    + destruct (merge_quantity k rest) as [rest'|] eqn:Hr; [|discriminate].
      injection Hm as <-. intros item [<-|Hin].
      * apply Hok. now left.
      * apply (IH k rest' Hr); [|exact Hin].
        intros y Hy. apply Hok. now right.
  - intros item Hin. apply in_app_or in Hin. destruct Hin as [Hin|[<-|[]]].
    + now apply Hok.
    + exists p. cbn [CartEntry.id CartEntry.name CartEntry.price].
      rewrite (backend_Product_get_id _ _ _ Hg). auto.
Qed.

Lemma cart_matches_handle (r : Request) (st : DB * Cart) :
  cart_matches_catalog (fst st) (snd st) ->
  cart_matches_catalog (fst (fst (handle r st))) (snd (fst (handle r st))).
Proof.
  destruct st as [s c]. cbn [fst snd]. intros Hok.
  destruct r as [u m form|pid|pid|u]; cbn [handle].
  - destruct (backend_product_form_products u m form s) as (more & Hp & _).
    destruct (product_form u m form s) as [s' resp]. cbn [fst snd] in *.
    intros item Hin. destruct (Hok item Hin) as (p & Hg & Hn & Hpr).
    exists p. split; [|now split]. unfold Product_get in *. rewrite Hp.
    now apply find_app_some.
  - pose proof (cart_matches_add pid s c Hok) as Hadd.
    destruct (add_to_cart pid s c). exact Hadd.
  - cbn [remove_from_cart fst snd]. intros item Hin.
    apply filter_In in Hin. now apply Hok.
  - destruct c as [|item rest]; cbn [checkout fst snd]; [exact Hok|].
    intros x [].
Qed.

(** X22: in the session-keyed application the name and the price kept in
    a cart dict are those of the listing it references, in every store and
    cart reached by requests from a state where this holds (an empty cart,
    for one): no request edits a listing, and a repeated add only raises the
    quantity. *)
Theorem cart_matches_catalog_preserved (rs : list Request) (st : DB * Cart) :
  cart_matches_catalog (fst st) (snd st) ->
  cart_matches_catalog (fst (run st rs)) (snd (run st rs)).
Proof.
  revert st. induction rs as [|r rs IH]; intros st Hok; cbn; [exact Hok|].
  apply IH. now apply cart_matches_handle.
Qed.



End BackendMore.

(** * The further facts on concrete stores *)

Ltac small_nodup :=
  repeat (constructor; [cbn; intuition discriminate|]); constructor.

(** X1 on a complete form. *)
Lemma product_new_created_witness :
  let form := [("title", " Bottle "); ("category", "Sports");
               ("price", "10")] in
  truthy (strip (form_get form "title" "")) = true
  /\ str_in (strip (form_get form "category" "")) App.CATEGORIES = true
  /\ sqlite_integer (App.parse_int (form_get form "price" "0") 0) = true
  /\ snd (App.product_new 1 POST form App.empty_db) = App.ListingCreated.
Proof.
  intros form. split; [reflexivity|]. split; [reflexivity|].
  split; [reflexivity|].
  exact (proj2 (proj1 (product_new_created_iff 1 form App.empty_db))
           (conj eq_refl (conj eq_refl eq_refl))).
Defined.

(** X2 on the same form. *)
Lemma product_new_lookup_witness :
  let form := [("title", " Bottle "); ("category", "Sports");
               ("price", "10")] in
  let s' := fst (App.product_new 1 POST form App.listed_db) in
  App.product_new 1 POST form App.listed_db = (s', App.ListingCreated)
  /\ exists p, App.products s' = App.products App.listed_db ++ [p]
               /\ App.Product.seller_id p = 1
               /\ App.Product_get App.listed_db (App.Product.id p) = None
               /\ App.Product_get s' (App.Product.id p) = Some p.
Proof.
  intros form s'.
  assert (Hnew : App.product_new 1 POST form App.listed_db
                 = (s', App.ListingCreated)) by reflexivity.
  split; [exact Hnew|].
  destruct (product_new_lookup 1 form App.listed_db s' Hnew)
    as (p & Hp & Hs & Hnone & Hget & _).
  exists p. auto.
Defined.


(** X4 on a price change. *)
Lemma product_edit_effect_witness :
  let form := [("title", "Bottle"); ("category", "Sports");
               ("price", "25")] in
  let s' := fst (App.product_edit 1 1 POST form App.listed_db) in
  App.product_edit 1 1 POST form App.listed_db = (s', App.ListingUpdated)
  /\ App.Product_get s' 1
     = Some (App.Product.mk 1 "Bottle" "" "Sports" 25 None 1)
  /\ App.cart_items s' = App.cart_items App.listed_db.
Proof.
  intros form s'.
  assert (Hedit : App.product_edit 1 1 POST form App.listed_db
                  = (s', App.ListingUpdated)) by reflexivity.
  split; [exact Hedit|].
  destruct (product_edit_effect 1 1 form App.listed_db s' Hedit)
    as (Hget & _ & _ & Hcart & _).
  split; [exact Hget | exact Hcart].
Defined.

(** X5 for user 2 asking to delete the listing of user 1. *)
Lemma listing_of_another_seller_witness :
  App.Product_get App.listed_db 1 = Some App.bottle
  /\ App.Product.seller_id App.bottle <> App.requester (App.ProductDelete 2 1)
  /\ App.Product_get (fst (App.handle (App.ProductDelete 2 1) App.listed_db)) 1
     = Some App.bottle.
Proof.
  assert (Hne : App.Product.seller_id App.bottle
                <> App.requester (App.ProductDelete 2 1))
    by (cbn; discriminate).
  split; [reflexivity|]. split; [exact Hne|].
  exact (listing_of_another_seller_kept (App.ProductDelete 2 1) App.listed_db
           1 App.bottle eq_refl Hne).
Defined.

Lemma listed_db_pk_unique : App.pk_unique App.listed_db.
Proof. repeat split; small_nodup. Defined.

(** X6 on a run of four requests. *)
Lemma pk_unique_witness :
  let rs := [App.CartAdd 3 1; App.Checkout 2;
             App.ProductNew 1 POST [("title", "Cup"); ("category", "Other")];
             App.ProductDelete 1 1] in
  App.pk_unique App.listed_db /\ App.pk_unique (App.run App.listed_db rs).
Proof.
  intros rs. split; [exact listed_db_pk_unique|].
  exact (pk_unique_preserved rs App.listed_db listed_db_pk_unique).
Defined.

(** X7 on a checkout followed by a deletion. *)
Lemma orders_append_only_witness :
  exists more,
    App.orders (App.run App.listed_db [App.Checkout 2; App.ProductDelete 1 1])
    = App.orders App.listed_db ++ more.
Proof.
  exact (proj2 (orders_append_only App.listed_db)
           [App.Checkout 2; App.ProductDelete 1 1]).
Defined.

(** X8: user 3 adds to the cart, the cart of user 2 is as before. *)
Lemma cart_of_others_witness :
  NoDup (map App.CartItem.id (App.cart_items App.listed_db))
  /\ 2 <> App.requester (App.CartAdd 3 1)
  /\ App.cart_of (fst (App.handle (App.CartAdd 3 1) App.listed_db)) 2
     = [App.CartItem.mk 1 2 1 2].
Proof.
  assert (Hnd : NoDup (map App.CartItem.id (App.cart_items App.listed_db)))
    by small_nodup.
  assert (Hne : 2 <> App.requester (App.CartAdd 3 1)) by (cbn; discriminate).
  split; [exact Hnd|]. split; [exact Hne|].
  exact (cart_of_others_untouched (App.CartAdd 3 1) App.listed_db 2 Hnd Hne).
Defined.

(** X9: user 2 holds two bottles at 10 and adds a third. *)
Lemma cart_add_raises_total_witness :
  NoDup (map App.CartItem.id (App.cart_items App.listed_db))
  /\ App.Product_get App.listed_db 1 = Some App.bottle
  /\ App.quantity_held (fst (App.cart_add 2 1 App.listed_db)) 2 1 = 3
  /\ snd (App.cart_view 2 (fst (App.cart_add 2 1 App.listed_db))) = 30.
Proof.
  assert (Hnd : NoDup (map App.CartItem.id (App.cart_items App.listed_db)))
    by small_nodup.
  split; [exact Hnd|]. split; [reflexivity|].
  exact (cart_add_raises_total 2 1 App.listed_db App.bottle Hnd eq_refl).
Defined.

(** X10: an unknown entry, the entry of another user, an own entry. *)
Lemma cart_remove_effect_witness :
  (App.CartItem_get App.listed_db 9 = None
   /\ App.cart_remove 2 9 App.listed_db = (App.listed_db, NotFound))
  /\ (App.CartItem_get App.listed_db 1 = Some (App.CartItem.mk 1 2 1 2)
      /\ App.cart_remove 3 1 App.listed_db
         = (App.listed_db,
            Redirect "Cannot modify another user's cart." "danger"
              "cart_view")
      /\ App.CartItem_get (fst (App.cart_remove 2 1 App.listed_db)) 1 = None).
Proof.
  split.
  - split; [reflexivity|].
    exact (proj1 (cart_remove_effect 2 9 App.listed_db) eq_refl).
  - split; [reflexivity|]. split.
    + refine (proj1 (proj2 (cart_remove_effect 3 1 App.listed_db))
                (App.CartItem.mk 1 2 1 2) eq_refl _).
      cbn. discriminate.
    + exact (proj1 (proj2 (proj2 (proj2 (cart_remove_effect 2 1 App.listed_db))
                             (App.CartItem.mk 1 2 1 2) eq_refl eq_refl))).
Defined.

(** X11 for user 3, who holds nothing. *)
Lemma cart_add_then_remove_witness :
  App.Product_get App.listed_db 1 = Some App.bottle
  /\ App.entries_for App.listed_db 3 1 = []
  /\ fst (App.cart_remove 3 2 (fst (App.cart_add 3 1 App.listed_db)))
     = App.listed_db.
Proof.
  split; [reflexivity|]. split; [reflexivity|].
  exact (cart_add_then_remove 3 1 App.listed_db App.bottle eq_refl eq_refl).
Defined.

(** X12: the order of user 2 amounts to the 20 the cart page showed. *)
Lemma checkout_order_amount_witness :
  App.cart_of App.listed_db 2 <> []
  /\ snd (App.cart_view 2 App.listed_db) = 20
  /\ exists lines,
       App.order_items (fst (App.checkout 2 App.listed_db)) = [] ++ lines
       /\ App.lines_amount lines = 20
       /\ forall oi, In oi lines -> App.OrderItem.order_id oi = 1.
Proof.
  assert (Hne : App.cart_of App.listed_db 2 <> []) by (cbn; discriminate).
  split; [exact Hne|]. split; [reflexivity|].
  exact (proj2 (checkout_order_amount 2 App.listed_db Hne)).
Defined.

(** X13 for user 2. *)
Lemma checkout_twice_witness :
  NoDup (map App.CartItem.id (App.cart_items App.listed_db))
  /\ App.cart_of App.listed_db 2 <> []
  /\ (forall i, In i (App.cart_of App.listed_db 2) ->
        App.stale App.listed_db i = false)
  /\ App.checkout 2 (fst (App.checkout 2 App.listed_db))
     = (fst (App.checkout 2 App.listed_db), App.EmptyCart).
Proof.
  assert (Hnd : NoDup (map App.CartItem.id (App.cart_items App.listed_db)))
    by small_nodup.
  assert (Hne : App.cart_of App.listed_db 2 <> []) by (cbn; discriminate).
  assert (Hlive : forall i, In i (App.cart_of App.listed_db 2) ->
                    App.stale App.listed_db i = false).
  { intros i [<-|[]]. reflexivity. }
  split; [exact Hnd|]. split; [exact Hne|]. split; [exact Hlive|].
  exact (proj2 (proj2 (checkout_twice_refused 2 App.listed_db Hnd Hne Hlive))).
Defined.

(** X14 on a sign-up and a profile edit after the first user. *)
Lemma accounts_stay_unique_witness :
  let rs := [App.Signup POST [("email", "Ravi@Example.org");
                              ("username", "Ravi"); ("password", "pw")] 3;
             App.Dashboard 1 POST [("username", "A")]] in
  NoDup (map App.User.email [asha])
  /\ NoDup (map App.User.id [asha])
  /\ NoDup (map App.User.email (App.run_accounts [asha] rs))
  /\ NoDup (map App.User.id (App.run_accounts [asha] rs)).
Proof.
  intros rs.
  assert (He : NoDup (map App.User.email [asha])) by small_nodup.
  assert (Hi : NoDup (map App.User.id [asha])) by small_nodup.
  split; [exact He|]. split; [exact Hi|].
  exact (accounts_stay_unique rs [asha] He Hi).
Defined.

(** X15: the address of the first sign-up, in another case and padded. *)
Lemma email_stays_taken_witness :
  let form := [("email", "asha@example.org"); ("username", "Asha");
               ("password", "s3cret")] in
  let form' := [("email", " ASHA@Example.org "); ("username", "Other");
                ("password", "x")] in
  let users1 := fst (App.signup POST form 7 []) in
  let rs := [App.Dashboard 1 POST [("username", "A")]] in
  App.signup POST form 7 []
  = (users1, Redirect "Signup successful. Please log in." "success" "login")
  /\ strip (lower (form_get form' "email" ""))
     = strip (lower (form_get form "email" ""))
  /\ App.signup POST form' 8 (App.run_accounts users1 rs)
     = (App.run_accounts users1 rs,
        Redirect "Email already registered." "warning" "signup").
Proof.
  intros form form' users1 rs.
  assert (Hs : App.signup POST form 7 []
               = (users1,
                  Redirect "Signup successful. Please log in." "success"
                    "login")) by reflexivity.
  assert (He : strip (lower (form_get form' "email" ""))
               = strip (lower (form_get form "email" ""))) by reflexivity.
  split; [exact Hs|]. split; [exact He|].
  destruct (email_stays_taken form form' 7 8 [] users1 rs Hs He)
    as [Hfst Hsnd].
  rewrite (surjective_pairing
             (App.signup POST form' 8 (App.run_accounts users1 rs))).
  rewrite Hfst, (Hsnd eq_refl eq_refl). reflexivity.
Defined.

Lemma toy_hash_checks (password : string) (s : Z) :
  check_password_hash (generate_password_hash password s) password = true.
Proof. apply String.eqb_refl. Defined.

(** X16: sign up, rename, log in. *)
Lemma signup_then_login_witness :
  let form := [("email", "asha@example.org"); ("username", "Asha");
               ("password", "s3cret")] in
  let users1 := fst (App.signup POST form 7 []) in
  let rs := [App.Dashboard 1 POST [("username", "A")]] in
  (forall password s,
     check_password_hash (generate_password_hash password s) password = true)
  /\ App.signup POST form 7 []
     = (users1, Redirect "Signup successful. Please log in." "success" "login")
  /\ App.login POST form (App.run_accounts users1 rs) None
     = (Some 1, Redirect "Welcome back!" "success" "index").
Proof.
  intros form users1 rs.
  assert (Hs : App.signup POST form 7 []
               = (users1,
                  Redirect "Signup successful. Please log in." "success"
                    "login")) by reflexivity.
  split; [exact toy_hash_checks|]. split; [exact Hs|].
  exact (signup_then_login form 7 [] users1 rs None toy_hash_checks Hs).
Defined.

(** X17: a wrong password leaves the session of user 5 in place. *)
Lemma login_needs_matching_hash_witness :
  let form := [("email", "asha@example.org"); ("password", "guess")] in
  snd (App.login POST form [asha] (Some 5))
  <> Redirect "Welcome back!" "success" "index"
  /\ App.login POST form [asha] (Some 5)
     = (Some 5, Redirect "Invalid email or password" "danger" "login").
Proof.
  intros form.
  assert (Hne : snd (App.login POST form [asha] (Some 5))
                <> Redirect "Welcome back!" "success" "index")
    by (cbn; discriminate).
  split; [exact Hne|].
  exact (proj2 (login_needs_matching_hash form [asha] (Some 5)) Hne).
Defined.

(** X18: an empty name is refused, a name is stored stripped. *)
Lemma dashboard_renames_witness :
  (truthy (strip (form_get [("username", "  ")] "username" "")) = false
   /\ App.dashboard 1 POST [("username", "  ")] [asha]
      = ([asha],
         Redirect "Username cannot be empty." "danger" "dashboard"))
  /\ (truthy (strip (form_get [("username", " Ash ")] "username" "")) = true
      /\ map App.User.email
           (fst (App.dashboard 1 POST [("username", " Ash ")] [asha]))
         = ["asha@example.org"]).
Proof.
  split.
  - split; [reflexivity|].
    exact (proj1 (dashboard_renames_own_row 1 [("username", "  ")] [asha])
             eq_refl).
  - split; [reflexivity|].
    exact (proj1 (proj2 (proj2
             (proj2 (dashboard_renames_own_row 1 [("username", " Ash ")]
                       [asha]) eq_refl)))).
Defined.

(** X19: the lamp added to an empty cart; product 9 is unknown. *)
Lemma add_to_cart_counts_witness :
  Backend.Product_get lamp_db 1 = Some lamp
  /\ snd (Backend.dashboard 1 lamp_db (fst (Backend.add_to_cart 1 lamp_db [])))
     = 1
  /\ Backend.Product_get lamp_db 9 = None
  /\ Backend.add_to_cart 9 lamp_db [] = ([], NotFound).
Proof.
  split; [reflexivity|]. split.
  - exact (proj1 (add_to_cart_counts_one 1 1 lamp_db []) lamp eq_refl).
  - split; [reflexivity|].
    exact (proj2 (add_to_cart_counts_one 1 9 lamp_db []) eq_refl).
Defined.

(** X20: the lamp added to an empty cart and removed. *)
Lemma remove_from_cart_witness :
  Backend.Product_get lamp_db 1 = Some lamp
  /\ ~ In 1 (map Backend.CartEntry.id (@nil Backend.CartEntry.t))
  /\ fst (Backend.remove_from_cart 1 (fst (Backend.add_to_cart 1 lamp_db [])))
     = [].
Proof.
  split; [reflexivity|]. split; [exact (fun F : False => F)|].
  exact (proj2 (proj2 (proj2 (remove_from_cart_effect 1 [])))
           lamp_db lamp eq_refl (fun F : False => F)).
Defined.

(** X21: the lamp is still listed after a creation and a checkout. *)
Lemma backend_listings_witness :
  let rs := [Backend.ProductForm 2 POST [("name", "Mug"); ("price", "4")];
             Backend.AddToCart 1; Backend.Checkout 2] in
  Backend.Product_get (fst (lamp_db, @nil Backend.CartEntry.t)) 1 = Some lamp
  /\ Backend.Product_get (fst (Backend.run (lamp_db, []) rs)) 1 = Some lamp.
Proof.
  intros rs. split; [reflexivity|].
  exact (proj2 (backend_listings_append_only rs (lamp_db, [])) 1 lamp eq_refl).
Defined.

Lemma empty_cart_matches (s : Backend.DB) : Backend.cart_matches_catalog s [].
Proof. intros item []. Defined.

(** X22 from the empty cart. *)
Lemma cart_matches_catalog_witness :
  let rs := [Backend.AddToCart 1;
             Backend.ProductForm 2 POST [("name", "Mug"); ("price", "4")];
             Backend.AddToCart 2; Backend.AddToCart 1] in
  Backend.cart_matches_catalog lamp_db []
  /\ Backend.cart_matches_catalog (fst (Backend.run (lamp_db, []) rs))
       (snd (Backend.run (lamp_db, []) rs)).
Proof.
  intros rs. split; [exact (empty_cart_matches lamp_db)|].
  exact (cart_matches_catalog_preserved rs (lamp_db, [])
           (empty_cart_matches lamp_db)).
Defined.


